(** * Living Trust & NGO Management API: a shallow embedding of
      [src/main.py] and [src/schemas.py]

    The development follows the layout of the program.

    - [Python]: the builtins the handlers rely on (strings, truthiness,
      [float], [sum], exceptions).
    - the request monad [M]: handlers run against a world made of the state
      of the persistence collaborator, the process environment and the log of
      the collaborator calls already made.
    - [Pydantic]: what building a model from the unpacked payload does for
      the field types that [schemas.py] declares, under the default model
      configuration.
    - [Schemas]: the eight models of [schemas.py].
    - [Main]: the handlers and the route table of [main.py].
    - [Database]: a store that follows the collaborator contract of the
      specification ([database.py] is not part of the sources).

    Numbers.  A float held by a record or a payload is finite and stands
    by its exact rational value ([Qc]).  [float] of an integer rounds to the
    nearest float and raises beyond their range; the sum of floats is the
    interpreter's, taken as given, and may be infinite or not a number
    ([double]).  Strings are byte strings holding UTF-8 text. *)

From Stdlib Require Import ZArith QArith Qcanon String Ascii List Lia.
From stdpp Require Import gmap strings list fin_maps pretty.

Set Warnings "-register-all".
Open Scope string_scope.

(* ===================================================================== *)
(** ** Python builtins *)
(* ===================================================================== *)

Module Python.

(** [str.lower] on one character.  Only the ASCII capitals are mapped: the
    eight collection names are ASCII and contain no letter that is the
    lower case of a character outside ASCII, so on the question "is the
    lowered name a collection name" this agrees with Python's full Unicode
    mapping. *)
Definition lower_char (c : ascii) : ascii :=
  let n := N_of_ascii c in
  if ((65 <=? n) && (n <=? 90))%N then ascii_of_N (n + 32) else c.

Fixpoint lower (s : string) : string :=
  match s with
  | EmptyString => EmptyString
  | String c r => String (lower_char c) (lower r)
  end.

(** A byte that continues a UTF-8 sequence. *)
Definition is_continuation (c : ascii) : bool :=
  let n := N_of_ascii c in ((128 <=? n) && (n <? 192))%N.

(** [s[:n]]: the first [n] characters (code points) of [s]. *)
Fixpoint str_prefix (n : nat) (s : string) : string :=
  match s with
  | EmptyString => EmptyString
  | String c r =>
      if is_continuation c then String c (str_prefix n r)
      else match n with
           | O => EmptyString
           | S n' => String c (str_prefix n' r)
           end
  end.

(** Values held by a [dict]: what a JSON body decodes to, plus the two
    kinds of object the persistence layer and the models add to it. *)
Inductive value : Type :=
| VNone
| VBool (b : bool)
| VInt (n : Z)
| VFloat (q : Qc)
| VStr (s : string)
| VList (l : list value)
| VDict (d : gmap string value)
| VObjectId (oid : string)
| VDate (year month day : Z).

(** A [dict] with string keys. *)
Abbreviation dict := (gmap string value).

(** [bool(x)] *)
Definition truthy (v : value) : bool :=
  match v with
  | VNone => false
  | VBool b => b
  | VInt n => negb (n =? 0)%Z
  | VFloat q => negb (Qc_eq_bool q 0)
  | VStr s => negb (String.eqb s "")
  | VList l => match l with [] => false | _ => true end
  | VDict d => negb (bool_decide (d = ∅))
  | VObjectId _ => true
  | VDate _ _ _ => true
  end.

(** [a or b] *)
Definition py_or (a b : value) : value := if truthy a then a else b.

(** [d.get(key, default)] *)
Definition dict_get (d : dict) (key : string) (default : value) : value :=
  match d !! key with
  | Some v => v
  | None => default
  end.

(** [key in d] *)
Definition dict_contains {A} (d : gmap string A) (key : string) : bool :=
  bool_decide (is_Some (d !! key)).

(** One line of a pydantic [ValidationError]: where, and which rule. *)
Inductive error_type : Type :=
| missing
| string_type
| float_type
| float_parsing
| greater_than_equal (bound : Qc)
| less_than_equal (bound : Qc)
| date_type
| list_type.

Inductive loc_item : Type :=
| LField (name : string)
| LIndex (i : nat).

Record line_error : Type := LineError {
  err_loc : list loc_item;
  err_type : error_type
}.

(** Exceptions.  Every constructor is a subclass of [Exception]. *)
Inductive exc : Type :=
| HTTPException (status_code : Z) (detail : string)
| ImportError (msg : string)
| ValidationError (title : string) (errors : list line_error)
| ValueError (msg : string)
| TypeError (msg : string)
| Exception (msg : string).

(** Outcome of an expression that may raise. *)
Abbreviation result A := (exc + A)%type.

(** What float arithmetic gives: a finite float, by its exact value, an
    infinity, or not-a-number. *)
Inductive double : Type :=
| Finite (q : Qc)
| PosInf
| NegInf
| NaN.

(** The integer nearest to [n] among those with at most 53 significant
    bits, a tie going to the even one. *)
Definition round53 (n : Z) : Z :=
  let a := Z.abs n in
  let bits := (Z.log2 a + 1)%Z in
  if (bits <=? 53)%Z then n
  else
    let s := (bits - 53)%Z in
    let q := Z.shiftr a s in
    let r := Z.land a (Z.ones s) in
    let half := Z.shiftl 1 (s - 1) in
    let q' := if (half <? r)%Z || ((r =? half)%Z && Z.odd q)
              then (q + 1)%Z else q in
    (Z.sgn n * Z.shiftl q' s)%Z.

(** [float(n)] on an [int]: the nearest float, [OverflowError] (one of the
    other exceptions) beyond the range of floats. *)
Definition float_of_int (n : Z) : result Qc :=
  let m := round53 n in
  if (Z.abs m <? 2 ^ 1024)%Z then inr (Qc_of_Z m)
  else inl (Exception "int too large to convert to float").

Arguments round53 : simpl never.
Arguments float_of_int : simpl never.

End Python.
Export Python.

(* ===================================================================== *)
(** ** Library functions taken as given *)
(* ===================================================================== *)

(** A pydantic model class: its name and its declared fields. *)
Inductive annotation : Type :=
| Tstr
| Tfloat
| Tdate
| Tlist_str.

Record FieldInfo : Type := Field {
  field_name : string;
  field_annotation : annotation;
  field_optional : bool;            (* [Optional[...]] *)
  field_default : option value;     (* [None] for [Field(...)]: required *)
  field_ge : option Qc;
  field_le : option Qc
}.

Record BaseModel : Type := ModelClass {
  model_name : string;
  model_fields : list FieldInfo
}.

(** Functions of the interpreter and of the libraries whose results the
    handlers pass on without looking into them. *)
Class Library : Type := {
  (** [str(x)] on a stored value *)
  py_str : value -> string;
  (** [float(s)] on a string; raises [ValueError] on a malformed one *)
  float_of_str : string -> result Qc;
  (** pydantic's lax conversion of a string to a float *)
  pydantic_float_of_str : string -> option Qc;
  (** pydantic's [date] validator on a value that is not [None] *)
  pydantic_date : value -> option value;
  (** [str(e)] of a pydantic [ValidationError] *)
  validation_error_str : string -> list line_error -> string;
  (** [Model.model_json_schema()] *)
  model_json_schema : BaseModel -> value;
  (** [sum(xs, start)] on floats.  How the interpreter adds them up depends
      on its version (one rounded addition after the other up to 3.11, a
      compensated sum from 3.12 on); either way the sum of nothing is the
      start, the sum of one float from 0 is that float, and a term that is
      zero leaves the sum as it is. *)
  float_sum : Qc -> list Qc -> double;
  float_sum_nil : forall start : Qc, float_sum start [] = Finite start;
  float_sum_one : forall x : Qc, float_sum 0%Qc [x] = Finite x;
  float_sum_zero : forall (start : Qc) (xs ys : list Qc),
    float_sum start (xs ++ 0%Qc :: ys) = float_sum start (xs ++ ys)
}.

(** [str(e)] *)
Definition str_exc `{Library} (e : exc) : string :=
  match e with
  | HTTPException status_code detail =>
      pretty status_code ++ ": " ++ detail
  | ImportError msg => msg
  | ValidationError title errors => validation_error_str title errors
  | ValueError msg => msg
  | TypeError msg => msg
  | Exception msg => msg
  end.

(** [type(x).__name__] *)
Definition type_name (v : value) : string :=
  match v with
  | VNone => "NoneType"
  | VBool _ => "bool"
  | VInt _ => "int"
  | VFloat _ => "float"
  | VStr _ => "str"
  | VList _ => "list"
  | VDict _ => "dict"
  | VObjectId _ => "ObjectId"
  | VDate _ _ _ => "datetime.date"
  end.

(** [float(x)] *)
Definition py_float `{Library} (v : value) : result Qc :=
  match v with
  | VBool b => inr (if b then 1%Qc else 0%Qc)
  | VInt n => float_of_int n
  | VFloat q => inr q
  | VStr s => float_of_str s
  | _ => inl (TypeError
                ("float() argument must be a string or a real number, not '"
                 ++ type_name v ++ "'"))
  end.

(* ===================================================================== *)
(** ** The persistence collaborator and the request monad *)
(* ===================================================================== *)

(** The object [db] of the [database] module, as far as [/test] uses it. *)
Record db_object : Type := DbObject {
  db_name : option string;                       (* [None]: no attribute [name] *)
  db_list_collection_names : result (list string)
}.

(** An instance of a model: the declared fields with their validated
    values, in declaration order. *)
Abbreviation model_instance := (list (string * value)).

(** The interface of [database.py] that [main.py] imports.  [DB] is the
    state of the store; every operation may raise and may change it. *)
Class Persistence (DB : Type) : Type := {
  (** [get_documents(collection_name, filter_dict, limit)] *)
  db_get_documents :
    string -> option dict -> option Z -> DB -> result (list dict) * DB;
  (** [create_document(collection_name, data)] *)
  db_create_document :
    string -> model_instance -> DB -> result string * DB;
  (** [from database import db]: raises, or binds [db] to [None] or to an
      object *)
  db_import : DB -> result (option db_object)
}.

(** A call made to the collaborator. *)
Inductive db_call : Type :=
| GetDocuments (collection_name : string) (filter_dict : option dict)
               (limit : option Z)
| CreateDocument (collection_name : string) (data : model_instance).

Section Monad.
Context {DB : Type}.

(** What a request runs against. *)
Record world : Type := World {
  store : DB;
  environ : gmap string string;      (* [os.environ] *)
  calls : list db_call               (* collaborator calls made so far *)
}.

Definition M (A : Type) : Type := world -> result A * world.

Definition ret {A} (a : A) : M A := fun w => (inr a, w).

Definition raise {A} (e : exc) : M A := fun w => (inl e, w).

Definition bind {A B} (m : M A) (k : A -> M B) : M B :=
  fun w =>
    match m w with
    | (inr a, w') => k a w'
    | (inl e, w') => (inl e, w')
    end.

(** [try: m  except Exception as e: handler(e)] *)
Definition try_except {A} (m : M A) (handler : exc -> M A) : M A :=
  fun w =>
    match m w with
    | (inr a, w') => (inr a, w')
    | (inl e, w') => handler e w'
    end.

(** An expression that may raise but touches nothing. *)
Definition lift {A} (r : result A) : M A := fun w => (r, w).

(** [os.getenv(name)] *)
Definition getenv (name : string) : M (option string) :=
  fun w => (inr (environ w !! name), w).

Context `{Persistence DB}.

Definition get_documents (collection_name : string)
    (filter_dict : option dict) (limit : option Z) : M (list dict) :=
  fun w =>
    let '(r, s) := db_get_documents collection_name filter_dict limit (store w) in
    (r, {| store := s; environ := environ w;
           calls := calls w ++ [GetDocuments collection_name filter_dict limit] |}).

Definition create_document (collection_name : string)
    (data : model_instance) : M string :=
  fun w =>
    let '(r, s) := db_create_document collection_name data (store w) in
    (r, {| store := s; environ := environ w;
           calls := calls w ++ [CreateDocument collection_name data] |}).

(** [from database import db] *)
Definition import_db : M (option db_object) :=
  fun w => (db_import (store w), w).

End Monad.

Arguments world : clear implicits.
Arguments M : clear implicits.

Notation "x <- m ;; k" := (bind m (fun x => k))
  (at level 100, m at next level, right associativity).

(* ===================================================================== *)
(** ** Pydantic: building a model from a payload *)
(* ===================================================================== *)

(** The models of [schemas.py] keep the default configuration: input is
    converted in lax mode, keys of the payload that are no declared field
    are ignored, defaults are taken as they are, and all fields are
    validated, their errors collected. *)
Module Pydantic.
Section Validation.
Context `{Library}.

Definition Qc_ltb (x y : Qc) : bool :=
  match (x ?= y)%Qc with
  | Lt => true
  | _ => false
  end.

(** Lax conversion to [float]. *)
Definition coerce_float (v : value) : error_type + Qc :=
  match v with
  | VFloat q => inr q
  | VInt n => inr (Qc_of_Z n)
  | VBool b => inr (if b then 1%Qc else 0%Qc)
  | VStr s =>
      match pydantic_float_of_str s with
      | Some q => inr q
      | None => inl float_parsing
      end
  | _ => inl float_type
  end.

(** The numeric constraints of a field: [le] is looked at before [ge]. *)
Definition check_bounds (f : FieldInfo) (q : Qc) : option error_type :=
  match field_le f with
  | Some b => if Qc_ltb b q then Some (less_than_equal b) else
      match field_ge f with
      | Some a => if Qc_ltb q a then Some (greater_than_equal a) else None
      | None => None
      end
  | None =>
      match field_ge f with
      | Some a => if Qc_ltb q a then Some (greater_than_equal a) else None
      | None => None
      end
  end.

(** Items of a [List[str]], from index [i] on. *)
Fixpoint validate_items (name : string) (i : nat) (l : list value)
  : list line_error :=
  match l with
  | [] => []
  | VStr _ :: r => validate_items name (S i) r
  | _ :: r => LineError [LField name; LIndex i] string_type
              :: validate_items name (S i) r
  end.

(** A value given for field [f]. *)
Definition validate_field (f : FieldInfo) (v : value)
  : list line_error + value :=
  let fail t := inl [LineError [LField (field_name f)] t] in
  match field_optional f, v with
  | true, VNone => inr VNone
  | _, _ =>
      match field_annotation f with
      | Tstr =>
          match v with
          | VStr s => inr (VStr s)
          | _ => fail string_type
          end
      | Tfloat =>
          match coerce_float v with
          | inl t => fail t
          | inr q =>
              match check_bounds f q with
              | Some t => fail t
              | None => inr (VFloat q)
              end
          end
      | Tdate =>
          match pydantic_date v with
          | Some d => inr d
          | None => fail date_type
          end
      | Tlist_str =>
          match v with
          | VList l =>
              match validate_items (field_name f) 0 l with
              | [] => inr (VList l)
              | errs => inl errs
              end
          | _ => fail list_type
          end
      end
  end.

(** Field [f] against the payload: absent keys take the default. *)
Definition validate_entry (payload : dict) (f : FieldInfo)
  : list line_error + value :=
  match payload !! field_name f with
  | Some v => validate_field f v
  | None =>
      match field_default f with
      | Some d => inr d
      | None => inl [LineError [LField (field_name f)] missing]
      end
  end.

Fixpoint validate_fields (payload : dict) (fields : list FieldInfo)
  : list line_error * model_instance :=
  match fields with
  | [] => ([], [])
  | f :: fs =>
      let '(errs, vals) := validate_fields payload fs in
      match validate_entry payload f with
      | inl es => ((es ++ errs)%list, vals)
      | inr v => (errs, (field_name f, v) :: vals)
      end
  end.

(** The call of a model class on the unpacked payload. *)
Definition model_validate (model : BaseModel) (payload : dict)
  : result model_instance :=
  match validate_fields payload (model_fields model) with
  | ([], vals) => inr vals
  | (errs, _) => inl (ValidationError (model_name model) errs)
  end.

End Validation.
End Pydantic.

(* ===================================================================== *)
(** ** schemas.py *)
(* ===================================================================== *)

Module Schemas.

(** [name: T = Field(..., ge=, le=)] *)
Definition required (name : string) (t : annotation) (ge le : option Qc)
  : FieldInfo :=
  {| field_name := name; field_annotation := t; field_optional := false;
     field_default := None; field_ge := ge; field_le := le |}.

(** [name: Optional[T] = Field(None, ge=, le=)] *)
Definition optional (name : string) (t : annotation) (ge le : option Qc)
  : FieldInfo :=
  {| field_name := name; field_annotation := t; field_optional := true;
     field_default := Some VNone; field_ge := ge; field_le := le |}.

Definition Trust : BaseModel := ModelClass "Trust"
  [ required "name" Tstr None None;
    optional "purpose" Tstr None None;
    optional "inception_date" Tdate None None;
    optional "registration_number" Tstr None None ].

Definition Beneficiary : BaseModel := ModelClass "Beneficiary"
  [ required "full_name" Tstr None None;
    optional "email" Tstr None None;
    optional "phone" Tstr None None;
    optional "relation" Tstr None None;
    optional "allocation_percent" Tfloat (Some 0%Qc) (Some (Qc_of_Z 100));
    optional "notes" Tstr None None ].

Definition Trustee : BaseModel := ModelClass "Trustee"
  [ required "full_name" Tstr None None;
    required "role" Tstr None None;
    optional "email" Tstr None None;
    optional "phone" Tstr None None ].

Definition Asset : BaseModel := ModelClass "Asset"
  [ required "title" Tstr None None;
    required "category" Tstr None None;
    optional "value" Tfloat (Some 0%Qc) None;
    optional "owner" Tstr None None;
    optional "notes" Tstr None None ].

Definition Distribution : BaseModel := ModelClass "Distribution"
  [ required "beneficiary_name" Tstr None None;
    required "amount" Tfloat (Some 0%Qc) None;
    required "schedule" Tstr None None;
    optional "purpose" Tstr None None ].

Definition NGO : BaseModel := ModelClass "NGO"
  [ required "name" Tstr None None;
    optional "registration_id" Tstr None None;
    optional "email" Tstr None None;
    optional "phone" Tstr None None;
    optional "focus_areas" Tlist_str None None ].

Definition Donation : BaseModel := ModelClass "Donation"
  [ required "ngo_name" Tstr None None;
    required "amount" Tfloat (Some 0%Qc) None;
    optional "date_given" Tdate None None;
    optional "source_asset" Tstr None None;
    optional "notes" Tstr None None ].

Definition ComplianceDocument : BaseModel := ModelClass "ComplianceDocument"
  [ required "title" Tstr None None;
    required "doc_type" Tstr None None;
    required "status" Tstr None None;
    optional "due_date" Tdate None None;
    optional "link" Tstr None None ].

End Schemas.

(* ===================================================================== *)
(** ** main.py: the handlers *)
(* ===================================================================== *)

Module Main.
Import Schemas.

(** The body of [/test]. *)
Record test_response : Type := TestResponse {
  backend : string;
  database : string;
  database_url : option string;
  database_name : option string;
  connection_status : string;
  collections : list string
}.

Definition set_database (s : string) (r : test_response) : test_response :=
  {| backend := backend r; database := s; database_url := database_url r;
     database_name := database_name r;
     connection_status := connection_status r; collections := collections r |}.

Definition set_database_url (s : string) (r : test_response) : test_response :=
  {| backend := backend r; database := database r; database_url := Some s;
     database_name := database_name r;
     connection_status := connection_status r; collections := collections r |}.

Definition set_database_name (s : string) (r : test_response) : test_response :=
  {| backend := backend r; database := database r;
     database_url := database_url r; database_name := Some s;
     connection_status := connection_status r; collections := collections r |}.

Definition set_connection_status (s : string) (r : test_response)
  : test_response :=
  {| backend := backend r; database := database r;
     database_url := database_url r; database_name := database_name r;
     connection_status := s; collections := collections r |}.

Definition set_collections (l : list string) (r : test_response)
  : test_response :=
  {| backend := backend r; database := database r;
     database_url := database_url r; database_name := database_name r;
     connection_status := connection_status r; collections := l |}.

(** The body of [/api/summary]. *)
Record summary : Type := Summary {
  trusts : nat;
  beneficiaries : nat;
  assets : nat;
  ngos : nat;
  donations : nat;
  total_donation : double;
  total_asset_value : double
}.

(** What a handler returns. *)
Inductive body : Type :=
| BMessage (message : string)
| BTest (response : test_response)
| BSchema (schemas : gmap string value)
| BItems (items : list dict)
| BCreated (id : string) (status : string)
| BSummary (s : summary).

(** [COLLECTION_MODELS] *)
Definition COLLECTION_MODELS : gmap string BaseModel :=
  list_to_map
    [ ("trust", Trust);
      ("beneficiary", Beneficiary);
      ("trustee", Trustee);
      ("asset", Asset);
      ("distribution", Distribution);
      ("ngo", NGO);
      ("donation", Donation);
      ("compliancedocument", ComplianceDocument) ].

(** [if "_id" in d: d["_id"] = str(d["_id"])].  The loop of
    [list_documents] does this to every record of the list in place; a
    record that the list holds twice is converted a second time from its
    own string, which [str] gives back, so one conversion per position says
    the same. *)
Definition stringify_id `{Library} (d : dict) : dict :=
  match d !! "_id" with
  | Some v => <["_id" := VStr (py_str v)]> d
  | None => d
  end.

(** The floats that the generator [float(d.get(key, 0) or 0) for d in docs]
    yields, from the left; the first element that raises ends it. *)
Fixpoint floats_of `{Library} (key : string) (docs : list dict)
  : result (list Qc) :=
  match docs with
  | [] => inr []
  | d :: rest =>
      match py_float (py_or (dict_get d key (VInt 0)) (VInt 0)) with
      | inl e => inl e
      | inr x =>
          match floats_of key rest with
          | inl e => inl e
          | inr xs => inr (x :: xs)
          end
      end
  end.

(** [sum(float(d.get(key, 0) or 0) for d in docs)], from [acc]: adding
    floats neither raises nor has an effect, so the sum is that of the
    floats yielded, and an element that raises ends it. *)
Definition sum_of `{Library} (key : string) (docs : list dict) (acc : Qc)
  : result double :=
  match floats_of key docs with
  | inl e => inl e
  | inr xs => inr (float_sum acc xs)
  end.

Section Handlers.
Context `{Library} {DB : Type} `{Persistence DB}.

Definition read_root : M DB body :=
  ret (BMessage "Living Trust & NGO Management Backend is running").

Definition hello : M DB body :=
  ret (BMessage "Hello from the backend API!").

Definition initial_response : test_response :=
  {| backend := "✅ Running";
     database := "❌ Not Available";
     database_url := None;
     database_name := None;
     connection_status := "Not Connected";
     collections := [] |}.

Definition env_status (v : option string) : string :=
  match v with
  | Some (String _ _) => "✅ Set"
  | _ => "❌ Not Set"
  end.

Definition test_database : M DB body :=
  let response := initial_response in
  response <-
    try_except
      (db <- import_db ;;
       match db with
       | Some db =>
           let response := set_database "✅ Available" response in
           let response := set_database_url "✅ Configured" response in
           let response :=
             set_database_name
               (match db_name db with
                | Some n => n
                | None => "✅ Connected"
                end) response in
           let response := set_connection_status "Connected" response in
           try_except
             (collections <- lift (db_list_collection_names db) ;;
              let response := set_collections (take 10 collections) response in
              ret (set_database "✅ Connected & Working" response))
             (fun e =>
                ret (set_database
                       ("⚠️  Connected but Error: " ++ str_prefix 50 (str_exc e))
                       response))
       | None =>
           ret (set_database "⚠️  Available but not initialized" response)
       end)
      (fun e =>
         match e with
         | ImportError _ =>
             ret (set_database
                    "❌ Database module not found (run enable-database first)"
                    response)
         | _ =>
             ret (set_database ("❌ Error: " ++ str_prefix 50 (str_exc e))
                               response)
         end) ;;
  url <- getenv "DATABASE_URL" ;;
  let response := set_database_url (env_status url) response in
  name <- getenv "DATABASE_NAME" ;;
  let response := set_database_name (env_status name) response in
  ret (BTest response).

Definition get_schema : M DB body :=
  let models : gmap string BaseModel :=
    list_to_map
      [ ("trust", Trust);
        ("beneficiary", Beneficiary);
        ("trustee", Trustee);
        ("asset", Asset);
        ("distribution", Distribution);
        ("ngo", NGO);
        ("donation", Donation);
        ("compliancedocument", ComplianceDocument) ] in
  ret (BSchema (model_json_schema <$> models)).

Definition list_documents (collection : string) (limit : option Z)
  : M DB body :=
  let collection := lower collection in
  if negb (dict_contains COLLECTION_MODELS collection) then
    raise (HTTPException 404 "Unknown collection")
  else
    try_except
      (docs <- get_documents collection None limit ;;
       let docs := map stringify_id docs in
       ret (BItems docs))
      (fun e => raise (HTTPException 500 (str_exc e))).

Definition create_document_endpoint (collection : string) (payload : dict)
  : M DB body :=
  let collection := lower collection in
  match COLLECTION_MODELS !! collection with
  | None => raise (HTTPException 404 "Unknown collection")
  | Some Model =>
      obj <-
        try_except
          (lift (Pydantic.model_validate Model payload))
          (fun e =>
             raise (HTTPException 422 ("Validation error: " ++ str_exc e))) ;;
      try_except
        (new_id <- create_document collection obj ;;
         ret (BCreated new_id "created"))
        (fun e => raise (HTTPException 500 (str_exc e)))
  end.

Definition get_summary : M DB body :=
  try_except
    (trusts <- get_documents "trust" (Some ∅) None ;;
     beneficiaries <- get_documents "beneficiary" (Some ∅) None ;;
     assets <- get_documents "asset" (Some ∅) None ;;
     ngos <- get_documents "ngo" (Some ∅) None ;;
     donations <- get_documents "donation" (Some ∅) None ;;
     total_donation <- lift (sum_of "amount" donations 0%Qc) ;;
     asset_value <- lift (sum_of "value" assets 0%Qc) ;;
     ret (BSummary
            {| trusts := length trusts;
               beneficiaries := length beneficiaries;
               assets := length assets;
               ngos := length ngos;
               donations := length donations;
               total_donation := total_donation;
               total_asset_value := asset_value |}))
    (fun e => raise (HTTPException 500 (str_exc e))).

End Handlers.

(* --------------------------------------------------------------------- *)
(** *** The route table *)
(* --------------------------------------------------------------------- *)

(** The framework compiles the path of a route to a pattern: a literal
    segment matches itself, a parameter [{name}] matches one non-empty
    segment.  A request goes to the first route, in the order of
    registration, whose pattern and method both match; when none does, the
    first route whose pattern alone matches answers 405; a path that would
    match with the trailing slash toggled is redirected; anything else is
    404. *)

Inductive segment : Type :=
| Lit (s : string)
| Param (name : string).

(** [s.split("/")] *)
Fixpoint split_slash (s : string) : list string :=
  match s with
  | EmptyString => [EmptyString]
  | String c r =>
      if Ascii.eqb c "/" then EmptyString :: split_slash r
      else match split_slash r with
           | h :: t => String c h :: t
           | [] => [String c EmptyString]
           end
  end.

(** [name}] to [name]. *)
Fixpoint close_brace (s : string) : option string :=
  match s with
  | EmptyString => None
  | String c EmptyString => if Ascii.eqb c "}" then Some EmptyString else None
  | String c r => String c <$> close_brace r
  end.

Definition compile_segment (s : string) : segment :=
  match s with
  | String c r =>
      if Ascii.eqb c "{" then
        match close_brace r with
        | Some name => Param name
        | None => Lit s
        end
      else Lit s
  | EmptyString => Lit s
  end.

Definition compile_path (path : string) : list segment :=
  map compile_segment (split_slash path).

(** The path parameters when the pattern matches. *)
Fixpoint match_segments (pat : list segment) (segs : list string)
  : option (list (string * string)) :=
  match pat, segs with
  | [], [] => Some []
  | Lit s :: pat', x :: segs' =>
      if String.eqb s x then match_segments pat' segs' else None
  | Param name :: pat', x :: segs' =>
      match x with
      | EmptyString => None
      | _ => cons (name, x) <$> match_segments pat' segs'
      end
  | _, _ => None
  end.

(** The functions that the decorators register. *)
Inductive endpoint : Type :=
| e_read_root
| e_hello
| e_test_database
| e_get_schema
| e_list_documents
| e_create_document_endpoint
| e_get_summary.

Record route : Type := Route {
  route_method : string;
  route_path : string;
  route_endpoint : endpoint
}.

(** The decorators of [main.py], from top to bottom. *)
Definition routes : list route :=
  [ Route "GET" "/" e_read_root;
    Route "GET" "/api/hello" e_hello;
    Route "GET" "/test" e_test_database;
    Route "GET" "/schema" e_get_schema;
    Route "GET" "/api/{collection}" e_list_documents;
    Route "POST" "/api/{collection}" e_create_document_endpoint;
    Route "GET" "/api/summary" e_get_summary ].

Inductive Match : Type :=
| NONE
| PARTIAL
| FULL (path_params : list (string * string)).

Definition matches (r : route) (method path : string) : Match :=
  match match_segments (compile_path (route_path r)) (split_slash path) with
  | Some params =>
      if String.eqb (route_method r) method then FULL params else PARTIAL
  | None => NONE
  end.

Inductive resolution : Type :=
| Endpoint (e : endpoint) (path_params : list (string * string))
| MethodNotAllowed
| Redirect (url : string)
| NotFound.

(** The first full match, remembering whether a partial one was seen. *)
Fixpoint first_match (rs : list route) (method path : string)
    (partial : bool) : option (endpoint * list (string * string)) * bool :=
  match rs with
  | [] => (None, partial)
  | r :: rest =>
      match matches r method path with
      | FULL params => (Some (route_endpoint r, params), partial)
      | PARTIAL => first_match rest method path true
      | NONE => first_match rest method path partial
      end
  end.

(** [path.rstrip("/")] *)
Fixpoint rstrip_slash (s : string) : string :=
  match s with
  | EmptyString => EmptyString
  | String c r =>
      match rstrip_slash r with
      | EmptyString => if Ascii.eqb c "/" then EmptyString else String c EmptyString
      | r' => String c r'
      end
  end.

Fixpoint ends_with_slash (s : string) : bool :=
  match s with
  | EmptyString => false
  | String c EmptyString => Ascii.eqb c "/"
  | String _ r => ends_with_slash r
  end.

Definition toggle_slash (path : string) : string :=
  if ends_with_slash path then rstrip_slash path else path ++ "/".

Definition resolve (method path : string) : resolution :=
  match first_match routes method path false with
  | (Some (e, params), _) => Endpoint e params
  | (None, true) => MethodNotAllowed
  | (None, false) =>
      if negb (String.eqb path "/") &&
         existsb (fun r =>
                    match matches r method (toggle_slash path) with
                    | NONE => false
                    | _ => true
                    end) routes
      then Redirect (toggle_slash path)
      else NotFound
  end.

(** A request, its query and body already decoded. *)
Record request : Type := Request {
  method : string;
  path : string;
  query_limit : option Z;      (* [?limit=N], [None] when not supplied *)
  json_body : dict
}.

Inductive response_content : Type :=
| Json (b : body)
| Detail (detail : string)
| Location (url : string)
| PlainText (text : string).

Record response : Type := Response {
  status : Z;
  content : response_content
}.

Section App.
Context `{Library} {DB : Type} `{Persistence DB}.

Definition path_param (params : list (string * string)) (name : string)
  : string :=
  match List.find (fun p => String.eqb (fst p) name) params with
  | Some p => snd p
  | None => EmptyString
  end.

(** The call of an endpoint with its parameters bound from the request;
    [limit] takes its declared default, 50, when the query has none. *)
Definition call (e : endpoint) (params : list (string * string))
    (req : request) : M DB body :=
  match e with
  | e_read_root => read_root
  | e_hello => hello
  | e_test_database => test_database
  | e_get_schema => get_schema
  | e_list_documents =>
      list_documents (path_param params "collection")
        (Some (match query_limit req with
               | Some n => n
               | None => 50%Z
               end))
  | e_create_document_endpoint =>
      create_document_endpoint (path_param params "collection")
        (json_body req)
  | e_get_summary => get_summary
  end.

(** What the application answers: the value returned, with status 200; an
    [HTTPException] as its status and detail; any other exception as a bare
    500. *)
Definition app (req : request) (w : world DB) : response * world DB :=
  match resolve (method req) (path req) with
  | Endpoint e params =>
      match call e params req w with
      | (inr b, w') => (Response 200 (Json b), w')
      | (inl (HTTPException status_code detail), w') =>
          (Response status_code (Detail detail), w')
      | (inl _, w') => (Response 500 (PlainText "Internal Server Error"), w')
      end
  | MethodNotAllowed => (Response 405 (Detail "Method Not Allowed"), w)
  | Redirect url => (Response 307 (Location url), w)
  | NotFound => (Response 404 (Detail "Not Found"), w)
  end.

End App.
End Main.

(* ===================================================================== *)
(** ** database.py, from its contract *)
(* ===================================================================== *)

Module Database.

(** Modelled from the spec: the state behind [database.py], which is not
    among the sources: the records of each collection in insertion order,
    and the number of identifiers handed out. *)
Record state : Type := State {
  records : gmap string (list dict);
  next_id : nat
}.

Section Store.
(** Whether a record passes a filter; the contract leaves it open. *)
Variable doc_matches : dict -> dict -> bool.

(** Modelled from the spec: [get_documents] of [database.py], which is not
    among the sources: "fetch up to N records from named collection,
    optionally filtered, return ordered sequence of records". *)
Definition get_documents (collection_name : string)
    (filter_dict : option dict) (limit : option Z) (st : state)
  : result (list dict) * state :=
  let docs := default [] (records st !! collection_name) in
  let docs :=
    match filter_dict with
    | Some f => List.filter (doc_matches f) docs
    | None => docs
    end in
  let docs :=
    match limit with
    | Some n => take (Z.to_nat n) docs
    | None => docs
    end in
  (inr docs, st).

(** Modelled from the spec: [create_document] of [database.py], which is
    not among the sources: "insert one record into named collection, return
    generated identifier". *)
Definition create_document (collection_name : string)
    (data : model_instance) (st : state) : result string * state :=
  let new_id := pretty (next_id st) in
  let doc : dict := <["_id" := VObjectId new_id]> (list_to_map data) in
  let docs := default [] (records st !! collection_name) in
  (inr new_id,
   {| records := <[collection_name := (docs ++ [doc])%list]> (records st);
      next_id := S (next_id st) |}).

(** Modelled from the spec: the handle [db] of [database.py]: a store that
    is configured, named [name], listing the collections it holds. *)
Definition import (name : string) (st : state) : result (option db_object) :=
  inr (Some {| db_name := Some name;
               db_list_collection_names :=
                 inr (elements (dom (records st))) |}).

Definition persistence (name : string) : Persistence state :=
  {| db_get_documents := get_documents;
     db_create_document := create_document;
     db_import := import name |}.

End Store.
End Database.

(* ===================================================================== *)
(** ** A runnable instance *)
(* ===================================================================== *)

(** The library functions on the values that the examples use: scalars
    print as Python prints them, strings of digits convert to numbers. *)
Module Example.

Definition str_scalar (v : value) : string :=
  match v with
  | VNone => "None"
  | VBool true => "True"
  | VBool false => "False"
  | VInt n => pretty n
  | VStr s => s
  | VObjectId oid => oid
  | _ => "..."
  end.

Fixpoint digits (s : string) (acc : N) : option N :=
  match s with
  | EmptyString => Some acc
  | String c r =>
      let n := N_of_ascii c in
      if ((48 <=? n) && (n <=? 57))%N then digits r (10 * acc + (n - 48))%N
      else None
  end.

Definition number (s : string) : option Qc :=
  match s with
  | EmptyString => None
  | _ => (fun n => Qc_of_Z (Z.of_N n)) <$> digits s 0%N
  end.

(** The float nearest to [q], ties to even; [q] is a multiple of 2^-1074,
    as the exact sum of two floats is. *)
Definition round_double (q : Qc) : double :=
  let k := (Qnum (this q) * 2 ^ 1074 / Z.pos (Qden (this q)))%Z in
  let m := round53 k in
  if (Z.abs m <? 2 ^ 2098)%Z then
    Finite (Q2Qc (Qred (m # Z.to_pos (2 ^ 1074))))
  else if (0 <? m)%Z then PosInf else NegInf.

(** The addition of floats. *)
Definition double_add (a b : double) : double :=
  match a, b with
  | Finite x, Finite y =>
      if Qc_eq_bool y 0 then a
      else if Qc_eq_bool x 0 then b
      else round_double (x + y)%Qc
  | NaN, _ | _, NaN => NaN
  | PosInf, NegInf | NegInf, PosInf => NaN
  | PosInf, _ | _, PosInf => PosInf
  | NegInf, _ | _, NegInf => NegInf
  end.

(** [sum] as the interpreters up to 3.11 compute it: one rounded addition
    after the other, from the left. *)
Definition plain_sum (start : Qc) (xs : list Qc) : double :=
  fold_left (fun a x => double_add a (Finite x)) xs (Finite start).

Lemma plain_sum_one (x : Qc) : plain_sum 0%Qc [x] = Finite x.
Proof.
  unfold plain_sum. cbn [fold_left double_add].
  destruct (Qc_eq_bool x 0) eqn:Hx; [| reflexivity].
  apply Qc_eq_bool_correct in Hx. now subst x.
Qed.

Lemma plain_sum_zero (start : Qc) (xs ys : list Qc) :
  plain_sum start (xs ++ 0%Qc :: ys) = plain_sum start (xs ++ ys).
Proof.
  unfold plain_sum. rewrite !fold_left_app. simpl. f_equal.
  now destruct (fold_left _ xs (Finite start)).
Qed.

Definition library : Library :=
  {| py_str := str_scalar;
     float_of_str := fun s =>
       match number s with
       | Some q => inr q
       | None => inl (ValueError "could not convert string to float")
       end;
     pydantic_float_of_str := number;
     pydantic_date := fun v =>
       match v with
       | VDate y m d => Some (VDate y m d)
       | _ => None
       end;
     validation_error_str := fun title errors =>
       pretty (length errors) ++ " validation error for " ++ title;
     model_json_schema := fun model => VStr (model_name model);
     float_sum := plain_sum;
     float_sum_nil := fun start => eq_refl;
     float_sum_one := plain_sum_one;
     float_sum_zero := plain_sum_zero |}.

(** The store of [Database] with a filter that lets every record pass. *)
Definition persistence : Persistence Database.state :=
  Database.persistence (fun _ _ => true) "trustdb".

Definition empty_world : world Database.state :=
  {| store := {| Database.records := ∅; Database.next_id := 0 |};
     environ := ∅;
     calls := [] |}.

Definition in_memory (records : gmap string (list dict)) (next : nat)
  : world Database.state :=
  {| store := {| Database.records := records; Database.next_id := next |};
     environ := ∅;
     calls := [] |}.

(** Two trusts, one of them carrying an identifier. *)
Definition trust_records : list dict :=
  [ <["_id" := VObjectId "65a1"]> {[ "name" := VStr "Smith Family Trust" ]};
    {[ "name" := VStr "Doe Trust" ]} ].

Definition two_trusts : world Database.state :=
  in_memory {[ "trust" := trust_records ]} 2.

(** Donations of 100 and 50 and one without amount; an asset without
    value and one worth 12.5. *)
Definition donation_records : list dict :=
  [ {[ "amount" := VInt 100 ]};
    {[ "amount" := VFloat (Q2Qc 50) ]};
    {[ "ngo_name" := VStr "Relief" ]} ].

Definition asset_records : list dict :=
  [ {[ "value" := VNone ]};
    {[ "value" := VFloat (Q2Qc (25 # 2)) ]} ].

Definition ledger : world Database.state :=
  in_memory (<["donation" := donation_records]>
               {[ "asset" := asset_records ]}) 5.

(** A donation of -2.5. *)
Definition negative_donation : dict :=
  <["ngo_name" := VStr "Relief"]> {[ "amount" := VFloat (Q2Qc (-5 # 2)) ]}.

(** The trust of the specification's example. *)
Definition smith_trust : dict := {[ "name" := VStr "Smith Family Trust" ]}.

Definition smith_trust_instance : model_instance :=
  [ ("name", VStr "Smith Family Trust"); ("purpose", VNone);
    ("inception_date", VNone); ("registration_number", VNone) ].

(** The same trust with two keys that [Trust] does not declare. *)
Definition smith_trust_extra : dict :=
  <["is_admin" := VBool true]> (<["founded" := VInt 1999]> smith_trust).

(** Five trusts. *)
Definition five_trusts : world Database.state :=
  in_memory
    {[ "trust" :=
         [ {[ "name" := VStr "A" ]}; {[ "name" := VStr "B" ]};
           {[ "name" := VStr "C" ]}; {[ "name" := VStr "D" ]};
           {[ "name" := VStr "E" ]} ] ]} 5.

(** The floats 0.1 and 0.2, by their exact values, and two donations of
    these amounts. *)
Definition tenth : Qc := Q2Qc (3602879701896397 # 36028797018963968).
Definition fifth : Qc := Q2Qc (3602879701896397 # 18014398509481984).

Definition small_donations : list dict :=
  [ {[ "amount" := VFloat tenth ]}; {[ "amount" := VFloat fifth ]} ].

(** A collaborator that is not available: every operation raises. *)
Definition unavailable : Persistence unit :=
  {| db_get_documents := fun _ _ _ s =>
       (inl (Exception "Database not available"), s);
     db_create_document := fun _ _ s =>
       (inl (Exception "Database not available"), s);
     db_import := fun _ => inl (ImportError "No module named 'database'") |}.

(** A collaborator whose handle is there but whose listing raises. *)
Definition refusing : Persistence unit :=
  {| db_get_documents := fun _ _ _ s =>
       (inl (Exception "connection refused"), s);
     db_create_document := fun _ _ s =>
       (inl (Exception "connection refused"), s);
     db_import := fun _ =>
       inr (Some {| db_name := Some "trustdb";
                    db_list_collection_names :=
                      inl (Exception "connection refused") |}) |}.

Definition nowhere : world unit :=
  {| store := tt; environ := ∅; calls := [] |}.

(** A donation whose amount is a list, and one whose amount is empty
    text. *)
Definition odd_donations : list dict :=
  [ {[ "amount" := VInt 10 ]};
    {[ "amount" := VList [VInt 1] ]} ].

Definition odd_ledger : world Database.state :=
  in_memory {[ "donation" := odd_donations ]} 2.

End Example.

(* ===================================================================== *)
(** ** The specification's vocabulary *)
(* ===================================================================== *)

Module Spec.

(** The eight recognized collection names. *)
Definition recognized : list string :=
  [ "trust"; "beneficiary"; "trustee"; "asset"; "distribution"; "ngo";
    "donation"; "compliancedocument" ].

(** A handler outcome that is the NotFound error. *)
Definition is_not_found {A} (r : result A) : Prop :=
  exists detail, r = inl (HTTPException 404 detail).

(** A stored number as a float ([bool] is a kind of [int] in Python); an
    integer beyond the range of floats is none. *)
Definition number_of (v : value) : option Qc :=
  match v with
  | VBool b => Some (if b then 1%Qc else 0%Qc)
  | VInt n =>
      match float_of_int n with
      | inr q => Some q
      | inl _ => None
      end
  | VFloat q => Some q
  | _ => None
  end.

(** The amount a record contributes to a total: its numeric field, and 0
    when the field is missing or [None]. *)
Definition contribution (key : string) (d : dict) : option Qc :=
  match d !! key with
  | None => Some 0%Qc
  | Some VNone => Some 0%Qc
  | Some v => number_of v
  end.

(** The contributions of a list of records, in order. *)
Fixpoint contributions (key : string) (docs : list dict)
  : option (list Qc) :=
  match docs with
  | [] => Some []
  | d :: rest =>
      match contribution key d, contributions key rest with
      | Some x, Some xs => Some (x :: xs)
      | _, _ => None
      end
  end.

(** The sum of the contributions of a list of records, as the interpreter
    sums floats. *)
Definition total `{Library} (key : string) (docs : list dict)
  : option double :=
  float_sum 0%Qc <$> contributions key docs.

(** A number breaks a declared range of field [f]. *)
Definition violates (f : FieldInfo) (q : Qc) : Prop :=
  (exists a, field_ge f = Some a /\ (q < a)%Qc) \/
  (exists b, field_le f = Some b /\ (b < q)%Qc).

(** An error line reports a range of field [f] that [q] breaks. *)
Definition reports (e : line_error) (f : FieldInfo) (q : Qc) : Prop :=
  err_loc e = [LField (field_name f)] /\
  ((exists a, field_ge f = Some a /\ (q < a)%Qc /\
              err_type e = greater_than_equal a) \/
   (exists b, field_le f = Some b /\ (b < q)%Qc /\
              err_type e = less_than_equal b)).

End Spec.

(* ===================================================================== *)
(** ** Further vocabulary *)
(* ===================================================================== *)

Module Facts.

(** The number of characters (code points) of a UTF-8 string. *)
Fixpoint char_count (s : string) : nat :=
  match s with
  | EmptyString => 0
  | String c r =>
      if is_continuation c then char_count r else S (char_count r)
  end.

(** The string holds a slash. *)
Fixpoint contains_slash (s : string) : bool :=
  match s with
  | EmptyString => false
  | String c r => Ascii.eqb c "/" || contains_slash r
  end.

(** The collections that Summary reads, in the order it reads them. *)
Definition summary_collections : list string :=
  [ "trust"; "beneficiary"; "asset"; "ngo"; "donation" ].

(** The call by which Summary reads a collection. *)
Definition summary_call (name : string) : db_call :=
  GetDocuments name (Some ∅) None.

(** Reading collections one after the other until one read raises: the
    lists read or the exception, the state reached and the number of reads
    made. *)
Fixpoint fetch_each {DB : Type} `{Persistence DB} (names : list string)
    (s : DB) : result (list (list dict)) * DB * nat :=
  match names with
  | [] => (inr [], s, 0)
  | name :: rest =>
      match db_get_documents name (Some ∅) None s with
      | (inl e, s') => (inl e, s', 1)
      | (inr docs, s') =>
          let '(r, s'', k) := fetch_each rest s' in
          (match r with
           | inl e => inl e
           | inr l => inr (docs :: l)
           end, s'', S k)
      end
  end.

(** A call that reads. *)
Definition is_read (c : db_call) : Prop :=
  match c with
  | GetDocuments _ _ _ => True
  | CreateDocument _ _ => False
  end.

(** A value of the type that field [f] declares: [None] where the field is
    optional, else a string, a float inside the declared range, a date
    that the date validator produced, or a list of strings. *)
Definition well_typed `{Library} (f : FieldInfo) (v : value) : Prop :=
  (field_optional f = true /\ v = VNone) \/
  match field_annotation f with
  | Tstr => exists s, v = VStr s
  | Tfloat => exists q, v = VFloat q /\ ~ Spec.violates f q
  | Tdate => exists given, pydantic_date given = Some v
  | Tlist_str =>
      exists l, v = VList l /\ Forall (fun x => exists s, x = VStr s) l
  end.

(** The world after a handler: the environment kept, the log grown by
    [added]. *)
Definition extends {DB : Type} (w w' : world DB) (added : list db_call)
  : Prop :=
  environ w' = environ w /\ calls w' = (calls w ++ added)%list.

(** An outcome that is a value, or an HTTP error with one of the codes. *)
Definition answers {A : Type} (codes : list Z) (r : result A) : Prop :=
  match r with
  | inr _ => True
  | inl (HTTPException status_code _) => status_code ∈ codes
  | inl _ => False
  end.

(** What the application makes of the outcome of a handler. *)
Definition respond {DB : Type} (r : result Main.body * world DB)
  : Main.response * world DB :=
  match r with
  | (inr b, w') => (Main.Response 200 (Main.Json b), w')
  | (inl (HTTPException status_code detail), w') =>
      (Main.Response status_code (Main.Detail detail), w')
  | (inl _, w') =>
      (Main.Response 500 (Main.PlainText "Internal Server Error"), w')
  end.

End Facts.

(* ===================================================================== *)
(** ** Properties *)
(* ===================================================================== *)

Import Main.

(** *** The collection table *)

Lemma COLLECTION_MODELS_dom :
  dom COLLECTION_MODELS = list_to_set Spec.recognized.
Proof. reflexivity. Qed.

Lemma dict_contains_spec {A} (m : gmap string A) (k : string) :
  dict_contains m k = true <-> k ∈ dom m.
Proof.
  unfold dict_contains. rewrite bool_decide_eq_true. symmetry.
  apply elem_of_dom.
Qed.

Lemma recognized_iff (name : string) :
  dict_contains COLLECTION_MODELS name = true <-> name ∈ Spec.recognized.
Proof.
  rewrite dict_contains_spec, COLLECTION_MODELS_dom.
  apply elem_of_list_to_set.
Qed.

Lemma recognized_lookup (name : string) :
  name ∈ Spec.recognized <-> is_Some (COLLECTION_MODELS !! name).
Proof.
  rewrite <- recognized_iff. unfold dict_contains.
  now rewrite bool_decide_eq_true.
Qed.

(** Running a handler: open the operations of the monad. *)
Ltac run_handler :=
  unfold try_except, bind, lift, get_documents, create_document, import_db,
         getenv, ret, raise.

(** *** Routes *)

(** Every path that the pattern of [/api/summary] accepts is accepted by
    the pattern of [/api/{collection}]. *)
Lemma summary_path_is_collection_path (segs : list string) :
  match_segments (compile_path "/api/summary") segs <> None ->
  match_segments (compile_path "/api/{collection}") segs <> None.
Proof.
  change (compile_path "/api/summary") with [Lit ""; Lit "api"; Lit "summary"].
  change (compile_path "/api/{collection}")
    with [Lit ""; Lit "api"; Param "collection"].
  destruct segs as [| s0 [| s1 [| s2 rest]]]; cbn [match_segments];
    try congruence.
  destruct (String.eqb "" s0); [| congruence].
  destruct (String.eqb "api" s1); [| congruence].
  destruct (String.eqb_spec "summary" s2) as [<- |]; [| congruence].
  destruct rest; cbn; congruence.
Qed.

Lemma first_match_not_summary (method path : string) (e : endpoint)
    (params : list (string * string)) (partial : bool) :
  first_match routes method path false = (Some (e, params), partial) ->
  e <> e_get_summary.
Proof.
  unfold routes, first_match, matches.
  cbn [route_path route_method route_endpoint].
  pose proof (summary_path_is_collection_path (split_slash path)) as Hs.
  repeat match goal with
         | |- context [match_segments ?p ?s] =>
             destruct (match_segments p s) eqn:?
         end;
    repeat match goal with
           | |- context [String.eqb ?a ?b] => destruct (String.eqb_spec a b)
           end;
    intros [= <- <- <-]; try discriminate; subst;
    exfalso; apply Hs; congruence.
Qed.

(** No request is routed to [get_summary]. *)
Lemma get_summary_unreachable (method path : string)
    (params : list (string * string)) :
  resolve method path <> Endpoint e_get_summary params.
Proof.
  unfold resolve.
  destruct (first_match routes method path false) as [[[e ps] |] b] eqn:Hf.
  - intros [= -> ->]. now apply first_match_not_summary in Hf.
  - destruct b; [discriminate |]. destruct (_ && _); discriminate.
Qed.

(** The greeting, registered before the parameter route, is reached. *)
Example hello_is_reached :
  resolve "GET" "/api/hello" = Endpoint e_hello [].
Proof. reflexivity. Qed.

Section Routing.
Context `{Library} {DB : Type} `{Persistence DB}.

(** C1.  A GET request to [/api/summary] does not reach the summary
    aggregation: the route [/api/{collection}] is registered first and takes
    it with [collection = "summary"], which is no collection, so the answer
    is 404 "Unknown collection" and the collaborator is not consulted.  No
    other request reaches the aggregation either. *)
Theorem summary_request_taken_by_list_route :
  forall (limit : option Z) (body : dict) (w : world DB),
    resolve "GET" "/api/summary"
      = Endpoint e_list_documents [("collection", "summary")] /\
    app (Request "GET" "/api/summary" limit body) w
      = (Response 404 (Detail "Unknown collection"), w) /\
    (forall method path params,
        resolve method path <> Endpoint e_get_summary params).
Proof.
  intros limit body w. split; [reflexivity |]. split; [reflexivity |].
  intros method path params. apply get_summary_unreachable.
Qed.

(** C2.  List and Create look the lowered name up in the same table: a
    name that lowers to one of the eight recognized names is never answered
    with NotFound, and any other name is answered with 404 "Unknown
    collection" by both, the world (store and call log) left as it was. *)
Theorem collection_name_resolution :
  forall (collection : string) (limit : option Z) (payload : dict)
         (w : world DB),
    if bool_decide (lower collection ∈ Spec.recognized) then
      ~ Spec.is_not_found (fst (list_documents collection limit w)) /\
      ~ Spec.is_not_found (fst (create_document_endpoint collection payload w))
    else
      list_documents collection limit w
        = (inl (HTTPException 404 "Unknown collection"), w) /\
      create_document_endpoint collection payload w
        = (inl (HTTPException 404 "Unknown collection"), w).
Proof.
  intros collection limit payload w.
  case_bool_decide as Hrec.
  - split.
    + unfold list_documents.
      apply recognized_iff in Hrec as ->. simpl.
      run_handler.
      destruct (db_get_documents _ _ _ _) as [[e | docs] st]; simpl;
        intros [detail Hd]; discriminate.
    + unfold create_document_endpoint.
      apply recognized_lookup in Hrec as [Model ->].
      run_handler.
      destruct (Pydantic.model_validate Model payload) as [e | obj]; simpl.
      * intros [detail Hd]; discriminate.
      * destruct (db_create_document _ _ _) as [[e | new_id] st]; simpl;
          intros [detail Hd]; discriminate.
  - split.
    + unfold list_documents.
      destruct (dict_contains COLLECTION_MODELS (lower collection)) eqn:Hc.
      * apply recognized_iff in Hc. contradiction.
      * reflexivity.
    + unfold create_document_endpoint.
      destruct (COLLECTION_MODELS !! lower collection) as [Model |] eqn:Hl.
      * exfalso. apply Hrec, recognized_lookup. eauto.
      * reflexivity.
Qed.

End Routing.

Section Introspection.
Context `{Library} {DB : Type} `{Persistence DB}.

(** C7.  GET [/schema] answers with a mapping whose keys are exactly the
    eight recognized kind names, and these are the names that the lookup of
    List and Create accepts. *)
Theorem schema_keys_are_the_recognized_names :
  forall (limit : option Z) (body : dict) (w : world DB),
  exists schemas : gmap string value,
    app (Request "GET" "/schema" limit body) w
      = (Response 200 (Json (BSchema schemas)), w) /\
    dom schemas = list_to_set Spec.recognized /\
    dom schemas = dom COLLECTION_MODELS /\
    (forall name, is_Some (schemas !! name) <-> name ∈ Spec.recognized) /\
    (forall name,
        is_Some (schemas !! name) <->
        dict_contains COLLECTION_MODELS name = true).
Proof.
  intros limit body w. eexists. split; [reflexivity |].
  assert (Hdom : forall m : gmap string BaseModel,
             dom (model_json_schema <$> m) = dom m)
    by (intros m; apply dom_fmap_L).
  split; [| split; [| split]].
  - rewrite Hdom. reflexivity.
  - rewrite Hdom. reflexivity.
  - intros name. rewrite <- elem_of_dom, Hdom.
    change (name ∈ dom COLLECTION_MODELS <-> name ∈ Spec.recognized).
    rewrite COLLECTION_MODELS_dom. apply elem_of_list_to_set.
  - intros name. rewrite <- elem_of_dom, Hdom.
    symmetry. apply dict_contains_spec.
Qed.

(** C9.  GET [/test] always answers 200 with its report and leaves the
    world alone.  Whatever importing the database module does (raise
    [ImportError], raise anything else, give [None], give a handle whose
    listing works or raises) only selects the text of the [database] entry,
    and the two environment variables only select "Set" or "Not Set". *)
Theorem test_endpoint_never_fails :
  forall (limit : option Z) (body : dict) (w : world DB),
  exists r : test_response,
    app (Request "GET" "/test" limit body) w
      = (Response 200 (Json (BTest r)), w) /\
    backend r = "✅ Running" /\
    database r =
      match db_import (store w) with
      | inl (ImportError _) =>
          "❌ Database module not found (run enable-database first)"
      | inl e => "❌ Error: " ++ str_prefix 50 (str_exc e)
      | inr None => "⚠️  Available but not initialized"
      | inr (Some db) =>
          match db_list_collection_names db with
          | inr _ => "✅ Connected & Working"
          | inl e => "⚠️  Connected but Error: " ++ str_prefix 50 (str_exc e)
          end
      end /\
    database_url r = Some (env_status (environ w !! "DATABASE_URL")) /\
    database_name r = Some (env_status (environ w !! "DATABASE_NAME")).
Proof.
  intros limit body w. unfold app. cbn [method path].
  change (resolve "GET" "/test") with (Endpoint e_test_database []).
  cbn [call]. unfold test_database. run_handler.
  destruct (db_import (store w)) as [e | [db |]].
  - destruct e; eexists; (split; [reflexivity |]); repeat split.
  - destruct (db_list_collection_names db) as [e | names];
      eexists; (split; [reflexivity |]); repeat split.
  - eexists; (split; [reflexivity |]); repeat split.
Qed.

End Introspection.

(** *** Validation *)

Section ValidationFacts.
Context `{Library}.
Import Pydantic.

Lemma Qc_ltb_lt (x y : Qc) : Qc_ltb x y = true <-> (x < y)%Qc.
Proof.
  unfold Qc_ltb. rewrite Qclt_alt.
  destruct (x ?= y)%Qc; split; congruence.
Qed.

Lemma check_bounds_violates (f : FieldInfo) (q : Qc) :
  Spec.violates f q ->
  exists t, check_bounds f q = Some t /\
    ((exists a, field_ge f = Some a /\ (q < a)%Qc /\
                t = greater_than_equal a) \/
     (exists b, field_le f = Some b /\ (b < q)%Qc /\
                t = less_than_equal b)).
Proof.
  unfold Spec.violates, check_bounds. intros Hv.
  destruct (field_le f) as [b |] eqn:Hle.
  - destruct (Qc_ltb b q) eqn:Hb.
    + apply Qc_ltb_lt in Hb. eexists. split; [reflexivity |].
      right. eauto.
    + destruct Hv as [(a & Ha & Hlt) | (b' & Hb' & Hlt)].
      * rewrite Ha. apply Qc_ltb_lt in Hlt as Hlt'. rewrite Hlt'.
        eexists. split; [reflexivity |]. left. eauto.
      * injection Hb' as <-. apply Qc_ltb_lt in Hlt. congruence.
  - destruct Hv as [(a & Ha & Hlt) | (b' & Hb' & Hlt)]; [| discriminate].
    rewrite Ha. apply Qc_ltb_lt in Hlt as Hlt'. rewrite Hlt'.
    eexists. split; [reflexivity |]. left. eauto.
Qed.

(** A value that converts to a number outside a declared range makes the
    field fail with one line that reports the range. *)
Lemma validate_entry_out_of_range (payload : dict) (f : FieldInfo)
    (v : value) (q : Qc) :
  field_annotation f = Tfloat ->
  payload !! field_name f = Some v ->
  coerce_float v = inr q ->
  Spec.violates f q ->
  exists e, validate_entry payload f = inl [e] /\ Spec.reports e f q.
Proof.
  intros Ht Hv Hq Hviol.
  destruct (check_bounds_violates f q Hviol) as (t & Hcb & Hrep).
  exists (LineError [LField (field_name f)] t). split.
  - unfold validate_entry, validate_field. rewrite Hv, Ht, Hq, Hcb.
    destruct (field_optional f); [destruct v |]; try reflexivity.
    discriminate.
  - split; [reflexivity | exact Hrep].
Qed.

Lemma validate_entry_errors_nonempty (payload : dict) (f : FieldInfo) :
  validate_entry payload f <> inl [].
Proof.
  unfold validate_entry, validate_field.
  destruct (payload !! field_name f) as [v |].
  - destruct (field_optional f), v, (field_annotation f); simpl;
      repeat match goal with
             | |- context [match ?x with _ => _ end] => destruct x
             end; discriminate.
  - destruct (field_default f); discriminate.
Qed.

(** The errors of every field are among the errors of the model. *)
Lemma validate_fields_errors (payload : dict) (fields : list FieldInfo)
    (f : FieldInfo) (es : list line_error) (e : line_error) :
  f ∈ fields ->
  validate_entry payload f = inl es ->
  e ∈ es ->
  e ∈ fst (validate_fields payload fields).
Proof.
  intros Hf Hes He. induction Hf as [f fs | f g fs Hf IH]; simpl.
  - destruct (validate_fields payload fs) as [errs vals].
    rewrite Hes. simpl. apply elem_of_app. now left.
  - destruct (validate_fields payload fs) as [errs vals].
    destruct (validate_entry payload g) as [es' | v']; simpl in *.
    + apply elem_of_app. right. now apply IH.
    + now apply IH.
Qed.

(** A model that validates has one value per declared field, in order. *)
Lemma validate_fields_keys (payload : dict) (fields : list FieldInfo)
    (vals : model_instance) :
  validate_fields payload fields = ([], vals) ->
  map fst vals = map field_name fields.
Proof.
  revert vals. induction fields as [| f fs IH]; intros vals; simpl.
  - intros [= <-]. reflexivity.
  - destruct (validate_fields payload fs) as [errs vals'].
    destruct (validate_entry payload f) as [es | v] eqn:He.
    + intros [= Happ <-]. apply app_eq_nil in Happ as [-> _].
      now apply validate_entry_errors_nonempty in He.
    + intros [= -> <-]. simpl. f_equal. now apply IH.
Qed.

(** Only the declared keys of the payload are read. *)
Lemma validate_fields_ext (payload payload' : dict)
    (fields : list FieldInfo) :
  (forall f, f ∈ fields ->
             payload' !! field_name f = payload !! field_name f) ->
  validate_fields payload' fields = validate_fields payload fields.
Proof.
  induction fields as [| f fs IH]; intros Hagree; simpl; [reflexivity |].
  rewrite IH by (intros g Hg; apply Hagree; now right).
  unfold validate_entry. rewrite (Hagree f) by now left. reflexivity.
Qed.

Lemma model_validate_keys (Model : BaseModel) (payload : dict)
    (obj : model_instance) :
  model_validate Model payload = inr obj ->
  map fst obj = map field_name (model_fields Model).
Proof.
  unfold model_validate.
  destruct (validate_fields payload (model_fields Model)) as [[| e errs] vals]
    eqn:Hv; [| discriminate].
  intros [= <-]. now apply validate_fields_keys in Hv.
Qed.

Lemma model_validate_error (Model : BaseModel) (payload : dict) (e : exc) :
  model_validate Model payload = inl e ->
  exists errors,
    e = ValidationError (model_name Model) errors /\
    errors = fst (validate_fields payload (model_fields Model)) /\
    errors <> [].
Proof.
  unfold model_validate.
  destruct (validate_fields payload (model_fields Model)) as [[| e' errs] vals];
    [discriminate |].
  intros [= <-]. eexists. repeat split. discriminate.
Qed.

End ValidationFacts.

(** *** Create *)

Section Create.
Context `{Library} {DB : Type} `{Persistence DB}.
Import Pydantic.

(** What Create does once the collection is resolved, by the outcome of
    validation. *)
Lemma create_document_endpoint_resolved (collection : string)
    (Model : BaseModel) (payload : dict) (w : world DB) :
  COLLECTION_MODELS !! lower collection = Some Model ->
  create_document_endpoint collection payload w =
    match model_validate Model payload with
    | inl e => (inl (HTTPException 422 ("Validation error: " ++ str_exc e)), w)
    | inr obj =>
        let '(r, st) := db_create_document (lower collection) obj (store w) in
        (match r with
         | inr new_id => inr (BCreated new_id "created")
         | inl e => inl (HTTPException 500 (str_exc e))
         end,
         {| store := st; environ := environ w;
            calls := calls w ++ [CreateDocument (lower collection) obj] |})
    end.
Proof.
  intros Hm. unfold create_document_endpoint. rewrite Hm.
  run_handler.
  destruct (model_validate Model payload) as [e | obj]; [reflexivity |].
  destruct (db_create_document (lower collection) obj (store w))
    as [[e | new_id] st]; reflexivity.
Qed.

(** C4.  A payload whose value for a float field converts to a number
    outside the declared range is refused with 422: the detail is the text
    of a validation error one line of which names the field and the range
    it breaks, and the world is untouched.  So the asset with value -1 is
    refused for [value >= 0], and the beneficiary with allocation_percent
    150 for [allocation_percent <= 100]. *)
Theorem create_rejects_out_of_range :
  (forall (collection : string) (Model : BaseModel) (payload : dict)
          (f : FieldInfo) (v : value) (q : Qc) (w : world DB),
      COLLECTION_MODELS !! lower collection = Some Model ->
      f ∈ model_fields Model ->
      field_annotation f = Tfloat ->
      payload !! field_name f = Some v ->
      coerce_float v = inr q ->
      Spec.violates f q ->
      exists errors e,
        create_document_endpoint collection payload w
          = (inl (HTTPException 422
                    ("Validation error: "
                     ++ validation_error_str (model_name Model) errors)), w) /\
        e ∈ errors /\ Spec.reports e f q) /\
  (forall w : world DB,
      create_document_endpoint "asset"
        (<["title" := VStr "House"]>
           (<["category" := VStr "Real Estate"]>
              (<["value" := VInt (-1)]> ∅))) w
      = (inl (HTTPException 422
                ("Validation error: "
                 ++ validation_error_str "Asset"
                      [LineError [LField "value"] (greater_than_equal 0%Qc)])),
         w)) /\
  (forall w : world DB,
      create_document_endpoint "beneficiary"
        (<["full_name" := VStr "Jane"]>
           (<["allocation_percent" := VInt 150]> ∅)) w
      = (inl (HTTPException 422
                ("Validation error: "
                 ++ validation_error_str "Beneficiary"
                      [LineError [LField "allocation_percent"]
                         (less_than_equal (Qc_of_Z 100))])),
         w)).
Proof.
  split; [| split].
  - intros collection Model payload f v q w Hm Hf Ht Hv Hq Hviol.
    destruct (validate_entry_out_of_range payload f v q Ht Hv Hq Hviol)
      as (e & He & Hrep).
    assert (Hin : e ∈ fst (validate_fields payload (model_fields Model))).
    { eapply validate_fields_errors; [exact Hf | exact He |].
      apply list_elem_of_singleton. reflexivity. }
    rewrite (create_document_endpoint_resolved _ _ _ _ Hm).
    unfold model_validate.
    destruct (validate_fields payload (model_fields Model))
      as [[| e' errs] vals]; simpl in Hin.
    + now apply not_elem_of_nil in Hin.
    + exists (e' :: errs), e. split; [reflexivity | split; assumption].
  - intros w. reflexivity.
  - intros w. reflexivity.
Qed.

(** C5.  For a recognized collection Create validates first.  When
    validation fails the answer is 422 and the world is the one it started
    from: no call is logged and the store is the same.  When it succeeds
    with [obj], exactly one call is added to the log, the insertion of
    [obj] into the lowered collection, and the answer is the identifier the
    collaborator assigned (or 500 with its message when it raised). *)
Theorem create_validates_before_insert :
  forall (collection : string) (Model : BaseModel) (payload : dict)
         (w : world DB),
    COLLECTION_MODELS !! lower collection = Some Model ->
    (forall e, model_validate Model payload = inl e ->
       create_document_endpoint collection payload w
         = (inl (HTTPException 422 ("Validation error: " ++ str_exc e)), w)) /\
    (forall obj, model_validate Model payload = inr obj ->
       exists r st,
         db_create_document (lower collection) obj (store w) = (r, st) /\
         create_document_endpoint collection payload w
           = (match r with
              | inr new_id => inr (BCreated new_id "created")
              | inl e => inl (HTTPException 500 (str_exc e))
              end,
              {| store := st; environ := environ w;
                 calls := calls w ++ [CreateDocument (lower collection) obj] |})).
Proof.
  intros collection Model payload w Hm.
  rewrite (create_document_endpoint_resolved _ _ _ _ Hm).
  split.
  - intros e ->. reflexivity.
  - intros obj ->.
    destruct (db_create_document (lower collection) obj (store w)) as [r st].
    exists r, st. split; reflexivity.
Qed.

(** C10.  Keys of the payload that the model does not declare play no
    part: when [payload] agrees with a valid payload [base] on every
    declared field, whatever else it holds, Create does not answer 422, the
    record it hands to the collaborator is the one validated from [base],
    and that record has exactly the declared fields. *)
Theorem create_drops_undeclared_keys :
  forall (collection : string) (Model : BaseModel) (base payload : dict)
         (obj : model_instance) (w : world DB),
    COLLECTION_MODELS !! lower collection = Some Model ->
    model_validate Model base = inr obj ->
    (forall f, f ∈ model_fields Model ->
               payload !! field_name f = base !! field_name f) ->
    map fst obj = map field_name (model_fields Model) /\
    model_validate Model payload = inr obj /\
    exists r st,
      db_create_document (lower collection) obj (store w) = (r, st) /\
      create_document_endpoint collection payload w
        = (match r with
           | inr new_id => inr (BCreated new_id "created")
           | inl e => inl (HTTPException 500 (str_exc e))
           end,
           {| store := st; environ := environ w;
              calls := calls w ++ [CreateDocument (lower collection) obj] |}).
Proof.
  intros collection Model base payload obj w Hm Hbase Hagree.
  assert (Hsame : model_validate Model payload = inr obj).
  { unfold model_validate in *.
    rewrite (validate_fields_ext base payload _ Hagree). exact Hbase. }
  split; [now apply model_validate_keys in Hbase |].
  split; [exact Hsame |].
  rewrite (create_document_endpoint_resolved _ _ _ _ Hm), Hsame.
  destruct (db_create_document (lower collection) obj (store w)) as [r st].
  exists r, st. split; reflexivity.
Qed.

End Create.

(** *** List *)

Section List.
Context `{Library} {DB : Type} `{Persistence DB}.

Lemma stringify_id_other (d : dict) (key : string) :
  key <> "_id" -> stringify_id d !! key = d !! key.
Proof.
  intros Hk. unfold stringify_id.
  destruct (d !! "_id") as [v |] eqn:Hid; [| reflexivity].
  apply lookup_insert_ne. congruence.
Qed.

Lemma stringify_id_id (d : dict) :
  stringify_id d !! "_id" = (fun v => VStr (py_str v)) <$> (d !! "_id").
Proof.
  unfold stringify_id.
  destruct (d !! "_id") as [v |] eqn:Hid; simpl.
  - apply lookup_insert_eq.
  - exact Hid.
Qed.

Lemma stringify_id_absent (d : dict) :
  d !! "_id" = None -> stringify_id d = d.
Proof. intros Hid. unfold stringify_id. now rewrite Hid. Qed.

(** What List does once the collection is resolved: one call to the
    collaborator, whose records or whose exception it passes on. *)
Lemma list_documents_resolved (collection : string) (limit : option Z)
    (w : world DB) :
  lower collection ∈ Spec.recognized ->
  list_documents collection limit w =
    let '(r, st) :=
      db_get_documents (lower collection) None limit (store w) in
    (match r with
     | inr docs => inr (BItems (map stringify_id docs))
     | inl e => inl (HTTPException 500 (str_exc e))
     end,
     {| store := st; environ := environ w;
        calls := calls w ++ [GetDocuments (lower collection) None limit] |}).
Proof.
  intros Hrec. apply recognized_iff in Hrec.
  unfold list_documents. rewrite Hrec. simpl.
  run_handler.
  destruct (db_get_documents (lower collection) None limit (store w))
    as [[e | docs] st]; reflexivity.
Qed.

(** C6.  When the collaborator returns [docs], List answers with as many
    items in the same order; item [i] has the fields of record [i], except
    that ["_id"], where present, holds the string rendering of the stored
    identifier; a record without ["_id"] comes back as it is. *)
Theorem list_returns_records_in_order :
  forall (collection : string) (limit : option Z) (w : world DB)
         (docs : list dict) (st : DB),
    lower collection ∈ Spec.recognized ->
    db_get_documents (lower collection) None limit (store w)
      = (inr docs, st) ->
    exists items : list dict,
      fst (list_documents collection limit w) = inr (BItems items) /\
      length items = length docs /\
      forall (i : nat) (d : dict), docs !! i = Some d ->
        exists d' : dict,
          items !! i = Some d' /\
          (forall key, key <> "_id" -> d' !! key = d !! key) /\
          d' !! "_id" = (fun v => VStr (py_str v)) <$> (d !! "_id") /\
          (d !! "_id" = None -> d' = d).
Proof.
  intros collection limit w docs st Hrec Hget.
  exists (map stringify_id docs).
  rewrite (list_documents_resolved _ _ _ Hrec), Hget. simpl.
  split; [reflexivity |]. split; [apply length_map |].
  intros i d Hi. exists (stringify_id d). split.
  - change (map stringify_id docs) with (stringify_id <$> docs).
    rewrite list_lookup_fmap, Hi. reflexivity.
  - split; [| split].
    + intros key. apply stringify_id_other.
    + apply stringify_id_id.
    + apply stringify_id_absent.
Qed.

End List.

(** *** List against the store of the contract *)

Section Limit.
Context `{Library}.
Variable doc_matches : dict -> dict -> bool.
Variable db : string.

#[local] Instance contract_store : Persistence Database.state :=
  Database.persistence doc_matches db.

(** C8.  List passes its limit on to the collaborator, 50 when the query
    has none, in its one call; the store of the contract then returns the
    first [limit] records of the collection, so the items are at most
    [limit] many, and 2 when 5 records exist and the limit is 2. *)
Theorem list_requests_at_most_limit :
  forall (collection : string) (supplied : option Z) (m p : string)
         (body : dict) (w : world Database.state),
    lower collection ∈ Spec.recognized ->
    let limit := default 50%Z supplied in
    let stored :=
      default [] (Database.records (store w) !! lower collection) in
    exists items : list dict,
      call e_list_documents [("collection", collection)]
           (Request m p supplied body) w
        = (inr (BItems items),
           {| store := store w; environ := environ w;
              calls := calls w
                       ++ [GetDocuments (lower collection) None (Some limit)] |})
      /\ items = map stringify_id (take (Z.to_nat limit) stored)
      /\ length items = Nat.min (Z.to_nat limit) (length stored)
      /\ (supplied = Some 2%Z -> length stored = 5 -> length items = 2).
Proof.
  intros collection supplied m p body w Hrec limit stored.
  exists (map stringify_id (take (Z.to_nat limit) stored)).
  assert (Hlen : length (map stringify_id (take (Z.to_nat limit) stored))
                 = Nat.min (Z.to_nat limit) (length stored))
    by (rewrite length_map; apply length_take).
  split; [| split; [reflexivity | split; [exact Hlen |]]].
  - cbn [call path_param List.find fst snd String.eqb Ascii.eqb Bool.eqb
         query_limit].
    rewrite (list_documents_resolved _ _ _ Hrec).
    subst limit stored. destruct supplied; reflexivity.
  - intros -> H5. rewrite Hlen, H5. reflexivity.
Qed.

End Limit.

(** *** Summary *)

Section SummaryFacts.
Context `{Library} {DB : Type} `{Persistence DB}.

Lemma float_of_int_zero : float_of_int 0 = inr 0%Qc.
Proof.
  unfold float_of_int. change (round53 0) with 0%Z.
  change (Z.abs 0 <? 2 ^ 1024)%Z with true. cbv iota.
  now rewrite Z2Qc_inj_0.
Qed.

(** The term that the code adds for a record is the record's
    contribution. *)
Lemma contribution_float (key : string) (d : dict) (x : Qc) :
  Spec.contribution key d = Some x ->
  py_float (py_or (dict_get d key (VInt 0)) (VInt 0)) = inr x.
Proof.
  assert (Hzero : py_float (py_or (VInt 0) (VInt 0)) = inr 0%Qc)
    by exact float_of_int_zero.
  unfold Spec.contribution, dict_get.
  destruct (d !! key) as [v |]; [| intros [= <-]; exact Hzero].
  destruct v; cbn [Spec.number_of]; try discriminate.
  - intros [= <-]. exact Hzero.
  - intros [= <-]. destruct b; [reflexivity | exact Hzero].
  - destruct (float_of_int n) as [e | q] eqn:Hf; [discriminate |].
    intros [= <-]. unfold py_or. cbn [truthy].
    destruct (n =? 0)%Z eqn:Hn; cbn [negb py_float]; [| exact Hf].
    apply Z.eqb_eq in Hn. subst n. exact Hf.
  - intros [= <-]. unfold py_or. cbn [truthy].
    destruct (Qc_eq_bool q 0) eqn:Hq; cbn [negb]; [| reflexivity].
    apply Qc_eq_bool_correct in Hq. subst q. exact Hzero.
Qed.

(** A record whose field is missing or [None] adds 0 and does not raise. *)
Lemma missing_amount_counts_zero (key : string) (d : dict) :
  d !! key = None \/ d !! key = Some VNone ->
  py_float (py_or (dict_get d key (VInt 0)) (VInt 0)) = inr 0%Qc.
Proof.
  intros Hd. apply contribution_float. unfold Spec.contribution.
  destruct Hd as [-> | ->]; reflexivity.
Qed.

(** The generator yields the contributions. *)
Lemma floats_of_contributions (key : string) (docs : list dict) :
  forall xs : list Qc,
    Spec.contributions key docs = Some xs ->
    floats_of key docs = inr xs.
Proof.
  induction docs as [| d rest IH]; intros xs; cbn [Spec.contributions floats_of].
  - intros [= <-]. reflexivity.
  - destruct (Spec.contribution key d) as [x |] eqn:Hx; [| discriminate].
    destruct (Spec.contributions key rest) as [xs' |]; [| discriminate].
    intros [= <-]. rewrite (contribution_float _ _ _ Hx).
    now rewrite (IH xs' eq_refl).
Qed.

(** The sum of the code is the total of the contributions. *)
Lemma sum_of_total (key : string) (docs : list dict) (t : double) :
  Spec.total key docs = Some t ->
  sum_of key docs 0%Qc = inr t.
Proof.
  unfold Spec.total, sum_of.
  destruct (Spec.contributions key docs) as [xs |] eqn:Hxs; [| discriminate].
  intros [= <-]. now rewrite (floats_of_contributions _ _ _ Hxs).
Qed.

(** Without records the total is 0, and of one record it is the record's
    contribution. *)
Lemma total_of_few (key : string) (d : dict) :
  Spec.total key [] = Some (Finite 0%Qc) /\
  Spec.total key [d] = Finite <$> Spec.contribution key d.
Proof.
  unfold Spec.total. cbn [Spec.contributions]. split.
  - cbn. now rewrite float_sum_nil.
  - destruct (Spec.contribution key d) as [x |]; cbn; [| reflexivity].
    now rewrite float_sum_one.
Qed.

(** C3.  When the five fetches return their lists and the amounts of the
    donations and the values of the assets are numbers that convert to
    floats where they are present and not [None], Summary answers with the
    length of each list, with [total_donation] the sum, as the interpreter
    sums floats, of the donations' amounts and [total_asset_value] that of
    the assets' values, a missing or [None] field counting 0; such a field
    never makes the sum raise. *)
Theorem summary_counts_and_totals :
  forall (w : world DB) (trusts beneficiaries assets ngos donations : list dict)
         (s1 s2 s3 s4 s5 : DB) (td tav : double),
    db_get_documents "trust" (Some ∅) None (store w) = (inr trusts, s1) ->
    db_get_documents "beneficiary" (Some ∅) None s1 = (inr beneficiaries, s2) ->
    db_get_documents "asset" (Some ∅) None s2 = (inr assets, s3) ->
    db_get_documents "ngo" (Some ∅) None s3 = (inr ngos, s4) ->
    db_get_documents "donation" (Some ∅) None s4 = (inr donations, s5) ->
    Spec.total "amount" donations = Some td ->
    Spec.total "value" assets = Some tav ->
    get_summary w
      = (inr (BSummary
                {| Main.trusts := length trusts;
                   Main.beneficiaries := length beneficiaries;
                   Main.assets := length assets;
                   Main.ngos := length ngos;
                   Main.donations := length donations;
                   total_donation := td;
                   total_asset_value := tav |}),
         {| store := s5; environ := environ w;
            calls := calls w
                     ++ [ GetDocuments "trust" (Some ∅) None;
                          GetDocuments "beneficiary" (Some ∅) None;
                          GetDocuments "asset" (Some ∅) None;
                          GetDocuments "ngo" (Some ∅) None;
                          GetDocuments "donation" (Some ∅) None ] |}) /\
    (forall (key : string) (d : dict),
        d !! key = None \/ d !! key = Some VNone ->
        Spec.contribution key d = Some 0%Qc /\
        py_float (py_or (dict_get d key (VInt 0)) (VInt 0)) = inr 0%Qc).
Proof.
  intros w trusts beneficiaries assets ngos donations s1 s2 s3 s4 s5 td tav
         H1 H2 H3 H4 H5 Htd Htav.
  split.
  - unfold get_summary. run_handler. simpl.
    rewrite H1. simpl. rewrite H2. simpl. rewrite H3. simpl.
    rewrite H4. simpl. rewrite H5. simpl.
    rewrite (sum_of_total _ _ _ Htd). simpl.
    rewrite (sum_of_total _ _ _ Htav). simpl.
    rewrite <- !app_assoc. reflexivity.
  - intros key d Hd. split.
    + unfold Spec.contribution. destruct Hd as [-> | ->]; reflexivity.
    + now apply missing_amount_counts_zero.
Qed.

End SummaryFacts.

(* ===================================================================== *)
(** ** The theorems at concrete inputs *)
(* ===================================================================== *)

Section Instances.
#[local] Existing Instance Example.library.
#[local] Existing Instance Example.persistence.

(** Creating the trust of the specification's example in an empty store
    and listing the collection afterwards gives it back, with the
    identifier it was assigned. *)
Example create_then_list :
  let w := snd (create_document_endpoint "Trust" Example.smith_trust
                  Example.empty_world) in
  fst (create_document_endpoint "Trust" Example.smith_trust
         Example.empty_world) = inr (BCreated "0" "created") /\
  fst (list_documents "trust" (Some 50%Z) w)
    = inr (BItems [ <["_id" := VStr "0"]>
                      (list_to_map Example.smith_trust_instance) ]).
Proof. split; reflexivity. Qed.

(** With the sum of the interpreters up to 3.11, donations of 0.1 and 0.2
    total 0.30000000000000004, the float next above 0.3. *)
Example total_is_rounded :
  Spec.total "amount" Example.small_donations
    = Some (Finite (Q2Qc (1351079888211149 # 4503599627370496))).
Proof. vm_compute. reflexivity. Qed.

(** An integer beyond the range of floats does not convert, one of more
    than 53 bits converts to the nearest float. *)
Example float_of_int_overflow :
  float_of_int (10 ^ 400)
    = inl (Exception "int too large to convert to float") /\
  float_of_int (2 ^ 53 + 1) = inr (Qc_of_Z (2 ^ 53)) /\
  float_of_int (2 ^ 53 + 3) = inr (Qc_of_Z (2 ^ 53 + 4)).
Proof. repeat split; vm_compute; reflexivity. Qed.

Lemma list_returns_records_in_order_witness :
  lower "Trust" ∈ Spec.recognized /\
  db_get_documents (lower "Trust") None (Some 50%Z) (store Example.two_trusts)
    = (inr Example.trust_records, store Example.two_trusts) /\
  exists items : list dict,
    fst (list_documents "Trust" (Some 50%Z) Example.two_trusts) = inr (BItems items) /\
    length items = length Example.trust_records /\
    forall (i : nat) (d : dict), Example.trust_records !! i = Some d ->
      exists d' : dict,
        items !! i = Some d' /\
        (forall key, key <> "_id" -> d' !! key = d !! key) /\
        d' !! "_id" = (fun v => VStr (py_str v)) <$> (d !! "_id") /\
        (d !! "_id" = None -> d' = d).
Proof.
  assert (Hrec : lower "Trust" ∈ Spec.recognized) by repeat constructor.
  assert (Hget : db_get_documents (lower "Trust") None (Some 50%Z)
                   (store Example.two_trusts)
                 = (inr Example.trust_records, store Example.two_trusts)) by reflexivity.
  split; [exact Hrec |]. split; [exact Hget |].
  exact (list_returns_records_in_order "Trust" (Some 50%Z) Example.two_trusts
           Example.trust_records (store Example.two_trusts) Hrec Hget).
Defined.

Lemma summary_counts_and_totals_witness :
  Spec.total "amount" Example.donation_records = Some (Finite (Q2Qc 150)) /\
  Spec.total "value" Example.asset_records = Some (Finite (Q2Qc (25 # 2))) /\
  fst (get_summary Example.ledger)
    = inr (BSummary
             {| trusts := 0; beneficiaries := 0; assets := 2; ngos := 0;
                donations := 3;
                total_donation := Finite (Q2Qc 150);
                total_asset_value := Finite (Q2Qc (25 # 2)) |}).
Proof.
  assert (Htd : Spec.total "amount" Example.donation_records = Some (Finite (Q2Qc 150)))
    by (vm_compute; reflexivity).
  assert (Htav : Spec.total "value" Example.asset_records = Some (Finite (Q2Qc (25 # 2))))
    by (vm_compute; reflexivity).
  assert (H1 : db_get_documents "trust" (Some ∅) None (store Example.ledger)
               = (inr [], store Example.ledger)) by reflexivity.
  assert (H2 : db_get_documents "beneficiary" (Some ∅) None (store Example.ledger)
               = (inr [], store Example.ledger)) by reflexivity.
  assert (H3 : db_get_documents "asset" (Some ∅) None (store Example.ledger)
               = (inr Example.asset_records, store Example.ledger)) by reflexivity.
  assert (H4 : db_get_documents "ngo" (Some ∅) None (store Example.ledger)
               = (inr [], store Example.ledger)) by reflexivity.
  assert (H5 : db_get_documents "donation" (Some ∅) None (store Example.ledger)
               = (inr Example.donation_records, store Example.ledger)) by reflexivity.
  split; [exact Htd |]. split; [exact Htav |].
  rewrite (proj1 (summary_counts_and_totals Example.ledger
                    [] [] Example.asset_records [] Example.donation_records
                    (store Example.ledger) (store Example.ledger) (store Example.ledger)
                    (store Example.ledger) (store Example.ledger) (Finite (Q2Qc 150))
                    (Finite (Q2Qc (25 # 2)))
                    H1 H2 H3 H4 H5 Htd Htav)).
  reflexivity.
Defined.

Lemma create_rejects_out_of_range_witness :
  COLLECTION_MODELS !! lower "Donation" = Some Schemas.Donation /\
  Spec.violates (Schemas.required "amount" Tfloat (Some 0%Qc) None)
                (Q2Qc (-5 # 2)) /\
  exists errors e,
    create_document_endpoint "Donation" Example.negative_donation Example.empty_world
      = (inl (HTTPException 422
                ("Validation error: "
                 ++ validation_error_str "Donation" errors)),
         Example.empty_world) /\
    e ∈ errors /\
    Spec.reports e (Schemas.required "amount" Tfloat (Some 0%Qc) None)
                 (Q2Qc (-5 # 2)).
Proof.
  assert (Hviol : Spec.violates
                    (Schemas.required "amount" Tfloat (Some 0%Qc) None)
                    (Q2Qc (-5 # 2))).
  { left. exists 0%Qc. split; reflexivity. }
  split; [reflexivity |]. split; [exact Hviol |].
  apply (proj1 create_rejects_out_of_range "Donation" Schemas.Donation
           Example.negative_donation
           (Schemas.required "amount" Tfloat (Some 0%Qc) None)
           (VFloat (Q2Qc (-5 # 2))) (Q2Qc (-5 # 2)) Example.empty_world).
  - reflexivity.
  - repeat constructor.
  - reflexivity.
  - reflexivity.
  - reflexivity.
  - exact Hviol.
Defined.

Lemma create_validates_before_insert_witness :
  COLLECTION_MODELS !! lower "Trust" = Some Schemas.Trust /\
  Pydantic.model_validate Schemas.Trust Example.smith_trust
    = inr Example.smith_trust_instance /\
  exists r st,
    db_create_document "trust" Example.smith_trust_instance
        (store Example.empty_world) = (r, st) /\
    create_document_endpoint "Trust" Example.smith_trust Example.empty_world
      = (match r with
         | inr new_id => inr (BCreated new_id "created")
         | inl e => inl (HTTPException 500 (str_exc e))
         end,
         {| store := st; environ := ∅;
            calls := [CreateDocument "trust" Example.smith_trust_instance] |}).
Proof.
  split; [reflexivity |]. split; [reflexivity |].
  exact (proj2 (create_validates_before_insert "Trust" Schemas.Trust
                  Example.smith_trust Example.empty_world eq_refl)
               Example.smith_trust_instance eq_refl).
Defined.

Lemma create_drops_undeclared_keys_witness :
  COLLECTION_MODELS !! lower "trust" = Some Schemas.Trust /\
  Pydantic.model_validate Schemas.Trust Example.smith_trust
    = inr Example.smith_trust_instance /\
  map fst Example.smith_trust_instance = map field_name (model_fields Schemas.Trust) /\
  Pydantic.model_validate Schemas.Trust Example.smith_trust_extra
    = inr Example.smith_trust_instance /\
  exists r st,
    db_create_document "trust" Example.smith_trust_instance
        (store Example.empty_world) = (r, st) /\
    create_document_endpoint "trust" Example.smith_trust_extra Example.empty_world
      = (match r with
         | inr new_id => inr (BCreated new_id "created")
         | inl e => inl (HTTPException 500 (str_exc e))
         end,
         {| store := st; environ := ∅;
            calls := [CreateDocument "trust" Example.smith_trust_instance] |}).
Proof.
  split; [reflexivity |]. split; [reflexivity |].
  apply (create_drops_undeclared_keys "trust" Schemas.Trust Example.smith_trust
           Example.smith_trust_extra Example.smith_trust_instance Example.empty_world
           eq_refl eq_refl).
  intros f Hf.
  repeat (apply elem_of_cons in Hf as [-> | Hf]; [reflexivity |]).
  now apply not_elem_of_nil in Hf.
Defined.

Lemma list_requests_at_most_limit_witness :
  lower "trust" ∈ Spec.recognized /\
  exists items : list dict,
    call e_list_documents [("collection", "trust")]
         (Request "GET" "/api/trust" (Some 2%Z) ∅) Example.five_trusts
      = (inr (BItems items),
         {| store := store Example.five_trusts; environ := ∅;
            calls := [GetDocuments "trust" None (Some 2%Z)] |}) /\
    length items = 2.
Proof.
  assert (Hrec : lower "trust" ∈ Spec.recognized) by repeat constructor.
  split; [exact Hrec |].
  destruct (list_requests_at_most_limit (fun _ _ => true) "trustdb"
              "trust" (Some 2%Z) "GET" "/api/trust" ∅ Example.five_trusts Hrec)
    as (items & Hcall & _ & _ & Htwo).
  exists items. split; [exact Hcall | apply Htwo; reflexivity].
Defined.

End Instances.

(* ===================================================================== *)
(** ** Further properties of the handlers *)
(* ===================================================================== *)

(** *** Names *)

Lemma lower_char_idempotent (c : ascii) :
  lower_char (lower_char c) = lower_char c.
Proof. destruct c as [[] [] [] [] [] [] [] []]; reflexivity. Qed.

Lemma lower_idempotent (s : string) : lower (lower s) = lower s.
Proof.
  induction s as [| c r IH]; simpl; [reflexivity |].
  now rewrite lower_char_idempotent, IH.
Qed.

(** Every key of the table is the lowered name of the model it maps to. *)
Lemma COLLECTION_MODELS_elements (name : string) (Model : BaseModel) :
  COLLECTION_MODELS !! name = Some Model ->
  (name, Model) ∈
    [ ("trust", Schemas.Trust); ("beneficiary", Schemas.Beneficiary);
      ("trustee", Schemas.Trustee); ("asset", Schemas.Asset);
      ("distribution", Schemas.Distribution); ("ngo", Schemas.NGO);
      ("donation", Schemas.Donation);
      ("compliancedocument", Schemas.ComplianceDocument) ].
Proof. intros Hm. now apply elem_of_list_to_map_2 in Hm. Qed.

(** Case analysis on an entry of the table. *)
Ltac each_model H :=
  apply COLLECTION_MODELS_elements in H;
  repeat (apply elem_of_cons in H as [[= -> ->] | H]);
  [ .. | now apply not_elem_of_nil in H ].

Section Names.
Context `{Library} {DB : Type} `{Persistence DB}.

(** X1.  The key under which a model is registered is the lower-case form
    of the name of its class, as the notes of [schemas.py] say. *)
Theorem collection_key_is_lowered_class_name :
  forall (name : string) (Model : BaseModel),
    COLLECTION_MODELS !! name = Some Model ->
    lower (model_name Model) = name.
Proof. intros name Model Hm. each_model Hm; reflexivity. Qed.

(** X2.  List and Create do not tell a name from its lower-case form: the
    lowered name gives the same outcome and the same world. *)
Theorem handlers_ignore_case :
  forall (collection : string) (limit : option Z) (payload : dict)
         (w : world DB),
    list_documents (lower collection) limit w
      = list_documents collection limit w /\
    create_document_endpoint (lower collection) payload w
      = create_document_endpoint collection payload w.
Proof.
  intros collection limit payload w.
  unfold list_documents, create_document_endpoint.
  rewrite lower_idempotent. split; reflexivity.
Qed.

(** X3.  The schema that GET [/schema] shows under a name is the schema of
    the model that Create validates against under that name: the two
    tables of [main.py] agree entry by entry. *)
Theorem schema_is_of_the_registered_model :
  forall (w : world DB),
  exists schemas : gmap string value,
    get_schema w = (inr (BSchema schemas), w) /\
    forall name : string,
      schemas !! name = model_json_schema <$> (COLLECTION_MODELS !! name).
Proof.
  intros w. eexists. split; [reflexivity |].
  intros name. apply lookup_fmap.
Qed.

End Names.

(** *** The diagnostic *)

Section Diagnostic.
Context `{Library} {DB : Type} `{Persistence DB}.
Import Facts.

(** A slice is a prefix of the text it is taken from. *)
Lemma str_prefix_is_prefix (n : nat) (s : string) :
  exists rest, s = str_prefix n s ++ rest.
Proof.
  revert n. induction s as [| c r IH]; intros n; simpl.
  - now exists "".
  - destruct (is_continuation c).
    + destruct (IH n) as [rest Hr]. exists rest.
      change (String c r = String c (str_prefix n r ++ rest)).
      f_equal. exact Hr.
    + destruct n as [| n'].
      * now exists (String c r).
      * destruct (IH n') as [rest Hr]. exists rest.
        change (String c r = String c (str_prefix n' r ++ rest)).
        f_equal. exact Hr.
Qed.

(** A slice of [n] has at most [n] characters. *)
Lemma str_prefix_count (n : nat) (s : string) :
  char_count (str_prefix n s) <= n.
Proof.
  revert n. induction s as [| c r IH]; intros n; simpl; [lia |].
  destruct (is_continuation c) eqn:Hc; simpl; rewrite ?Hc.
  - apply IH.
  - destruct n as [| n']; simpl; rewrite ?Hc; [lia |].
    specialize (IH n'). lia.
Qed.

(** A text of at most [n] characters is its own slice. *)
Lemma str_prefix_short (n : nat) (s : string) :
  char_count s <= n -> str_prefix n s = s.
Proof.
  revert n. induction s as [| c r IH]; intros n; simpl; [reflexivity |].
  destruct (is_continuation c).
  - intros Hn. f_equal. now apply IH.
  - destruct n as [| n']; [lia |]. intros Hn. f_equal. apply IH. lia.
Qed.

(** The diagnostic never fails, whatever the world. *)
Lemma test_database_returns (w : world DB) :
  exists r : test_response, test_database w = (inr (BTest r), w).
Proof.
  unfold test_database. run_handler.
  destruct (db_import (store w)) as [e | [db |]].
  - destruct e; eexists; reflexivity.
  - destruct (db_list_collection_names db); eexists; reflexivity.
  - eexists; reflexivity.
Qed.

(** X4.  The diagnostic reports "Connected" exactly when the import gives a
    handle, and lists the first ten collection names of a handle whose
    listing works: never more than ten, and none in every other case. *)
Theorem test_reports_connection_and_collections :
  forall (w : world DB),
  exists r : test_response,
    test_database w = (inr (BTest r), w) /\
    connection_status r =
      match db_import (store w) with
      | inr (Some _) => "Connected"
      | _ => "Not Connected"
      end /\
    collections r =
      match db_import (store w) with
      | inr (Some db) =>
          match db_list_collection_names db with
          | inr names => take 10 names
          | inl _ => []
          end
      | _ => []
      end /\
    length (collections r) <= 10.
Proof.
  intros w. unfold test_database. run_handler.
  destruct (db_import (store w)) as [e | [db |]].
  - destruct e; eexists; (split; [reflexivity |]); repeat split; simpl; lia.
  - destruct (db_list_collection_names db) as [e | names];
      eexists; (split; [reflexivity |]); repeat split; simpl; try lia.
    rewrite length_take. lia.
  - eexists; (split; [reflexivity |]); repeat split; simpl; lia.
Qed.

(** X5.  When the diagnostic reports an exception it shows a prefix of the
    message of at most 50 characters, and the whole message when that has
    no more than 50: after "Error: " for an exception of the import, after
    "Connected but Error: " for one of the listing. *)
Theorem test_error_text_is_bounded :
  forall (w : world DB) (r : test_response),
    test_database w = (inr (BTest r), w) ->
    forall (e : exc),
      (db_import (store w) = inl e /\ (forall msg, e <> ImportError msg)) \/
      (exists db, db_import (store w) = inr (Some db) /\
                  db_list_collection_names db = inl e) ->
      exists label shown rest : string,
        database r = label ++ shown /\
        (label = "❌ Error: " \/ label = "⚠️  Connected but Error: ") /\
        str_exc e = shown ++ rest /\
        char_count shown <= 50 /\
        (char_count (str_exc e) <= 50 -> shown = str_exc e).
Proof.
  intros w r Hr e He.
  destruct (str_prefix_is_prefix 50 (str_exc e)) as [rest Hrest].
  assert (Hshown :
    str_exc e = str_prefix 50 (str_exc e) ++ rest /\
    char_count (str_prefix 50 (str_exc e)) <= 50 /\
    (char_count (str_exc e) <= 50 -> str_prefix 50 (str_exc e) = str_exc e)).
  { split; [exact Hrest |]. split; [apply str_prefix_count |].
    apply str_prefix_short. }
  revert Hr. unfold test_database. run_handler.
  destruct He as [[Himp Hne] | (db & Himp & Hlist)]; rewrite Himp.
  - destruct e; try (now destruct (Hne msg));
      intros [= <-]; simpl;
      eexists _, (str_prefix 50 _), rest;
      (split; [reflexivity |]); (split; [now left |]); exact Hshown.
  - rewrite Hlist. intros [= <-]. simpl.
    eexists _, (str_prefix 50 _), rest.
    split; [reflexivity |]. split; [now right |]. exact Hshown.
Qed.

End Diagnostic.

(** *** Errors of the collaborator *)

Section CollaboratorErrors.
Context `{Library} {DB : Type} `{Persistence DB}.
Import Facts.

(** X6.  When the collaborator raises while List reads, List answers 500
    with the text of the exception as detail, after the one call it made;
    nothing is returned of the collection. *)
Theorem list_passes_collaborator_error :
  forall (collection : string) (limit : option Z) (w : world DB)
         (e : exc) (st : DB),
    lower collection ∈ Spec.recognized ->
    db_get_documents (lower collection) None limit (store w) = (inl e, st) ->
    list_documents collection limit w
      = (inl (HTTPException 500 (str_exc e)),
         {| store := st; environ := environ w;
            calls := calls w ++ [GetDocuments (lower collection) None limit] |}).
Proof.
  intros collection limit w e st Hrec Hget.
  rewrite (list_documents_resolved _ _ _ Hrec), Hget. reflexivity.
Qed.

(** X7.  Summary reads the five collections in order and stops at the
    first read that raises: it answers 500 with the text of that
    exception, and the calls it made are the reads up to and including the
    failing one. *)
Theorem summary_stops_at_first_failure :
  forall (w : world DB) (e : exc) (st : DB) (k : nat),
    fetch_each summary_collections (store w) = (inl e, st, k) ->
    get_summary w
      = (inl (HTTPException 500 (str_exc e)),
         {| store := st; environ := environ w;
            calls := calls w
                     ++ map summary_call (take k summary_collections) |}) /\
    1 <= k <= 5.
Proof.
  intros w e st k. unfold get_summary, summary_collections. run_handler.
  cbn [fetch_each].
  do 5 (match goal with
        | |- context [db_get_documents ?n (Some ∅) None ?s] =>
            destruct (db_get_documents n (Some ∅) None s) as [[? | ?] ?]
        end;
        simpl;
        [intros [= <- <- <-]; split;
           [rewrite <- ?app_assoc; reflexivity | lia] |]).
  discriminate.
Qed.

(** The sum raises as soon as one record holds something that [float]
    refuses. *)
Lemma floats_of_raises (key : string) (docs : list dict) (d : dict)
    (v : value) (e : exc) :
  d ∈ docs ->
  d !! key = Some v ->
  truthy v = true ->
  py_float v = inl e ->
  exists e', floats_of key docs = inl e'.
Proof.
  intros Hd Hv Ht He. induction Hd as [d rest | d d' rest Hd IH];
    cbn [floats_of].
  - unfold dict_get, py_or. rewrite Hv, Ht, He. eauto.
  - destruct (py_float (py_or (dict_get d' key (VInt 0)) (VInt 0)))
      as [e' | x]; [eauto |].
    destruct (IH Hv) as [e' ->]. eauto.
Qed.

Lemma sum_of_raises (key : string) (docs : list dict) (d : dict) (v : value)
    (e : exc) :
  d ∈ docs ->
  d !! key = Some v ->
  truthy v = true ->
  py_float v = inl e ->
  forall acc, exists e', sum_of key docs acc = inl e'.
Proof.
  intros Hd Hv Ht He acc. unfold sum_of.
  destruct (floats_of_raises key docs d v e Hd Hv Ht He) as [e' ->]. eauto.
Qed.

(** The generator over two lists, one after the other. *)
Lemma floats_of_app (key : string) (l1 l2 : list dict) :
  floats_of key (l1 ++ l2) =
    match floats_of key l1 with
    | inl e => inl e
    | inr xs =>
        match floats_of key l2 with
        | inl e => inl e
        | inr ys => inr (xs ++ ys)%list
        end
    end.
Proof.
  induction l1 as [| d rest IH].
  - change (floats_of key ([] ++ l2)) with (floats_of key l2).
    change (floats_of key []) with (@inr exc (list Qc) []).
    cbv iota. now destruct (floats_of key l2).
  - change (floats_of key ((d :: rest) ++ l2))
      with (match py_float (py_or (dict_get d key (VInt 0)) (VInt 0)) with
            | inl e => inl e
            | inr x =>
                match floats_of key (rest ++ l2) with
                | inl e => inl e
                | inr xs => inr (x :: xs)
                end
            end).
    cbn [floats_of].
    destruct (py_float (py_or (dict_get d key (VInt 0)) (VInt 0)))
      as [e | x]; [reflexivity |].
    rewrite IH. destruct (floats_of key rest) as [e | xs]; [reflexivity |].
    now destruct (floats_of key l2).
Qed.

(** X8.  One donation whose amount is neither empty nor convertible by
    [float] (a non-empty list or mapping, an identifier, a date, text that
    is no number) makes Summary answer 500 although every read worked, and
    likewise one asset with such a value. *)
Theorem summary_fails_on_unconvertible_amount :
  forall (w : world DB) (trusts beneficiaries assets ngos donations : list dict)
         (s1 s2 s3 s4 s5 : DB) (key : string) (d : dict) (v : value)
         (e : exc),
    db_get_documents "trust" (Some ∅) None (store w) = (inr trusts, s1) ->
    db_get_documents "beneficiary" (Some ∅) None s1 = (inr beneficiaries, s2) ->
    db_get_documents "asset" (Some ∅) None s2 = (inr assets, s3) ->
    db_get_documents "ngo" (Some ∅) None s3 = (inr ngos, s4) ->
    db_get_documents "donation" (Some ∅) None s4 = (inr donations, s5) ->
    (key = "amount" /\ d ∈ donations) \/ (key = "value" /\ d ∈ assets) ->
    d !! key = Some v ->
    truthy v = true ->
    py_float v = inl e ->
    exists detail : string,
      fst (get_summary w) = inl (HTTPException 500 detail).
Proof.
  intros w trusts beneficiaries assets ngos donations s1 s2 s3 s4 s5 key d v e
         H1 H2 H3 H4 H5 Hd Hv Ht He.
  unfold get_summary. run_handler. simpl.
  rewrite H1. simpl. rewrite H2. simpl. rewrite H3. simpl.
  rewrite H4. simpl. rewrite H5. simpl.
  destruct Hd as [[-> Hd] | [-> Hd]].
  - destruct (sum_of_raises "amount" donations d v e Hd Hv Ht He 0%Qc)
      as [e' ->]. simpl. eauto.
  - destruct (sum_of "amount" donations 0) as [e' | td]; simpl; [eauto |].
    destruct (sum_of_raises "value" assets d v e Hd Hv Ht He 0%Qc)
      as [e' ->]. simpl. eauto.
Qed.

(** X9.  A record whose field is falsy (0, 0.0, [False], empty text, an
    empty list or mapping, [None]) adds nothing to a total and never makes
    it raise, wherever it stands among the records. *)
Theorem falsy_amount_is_neutral :
  forall (key : string) (before after : list dict) (d : dict) (v : value)
         (acc : Qc),
    d !! key = Some v ->
    truthy v = false ->
    sum_of key (before ++ d :: after) acc = sum_of key (before ++ after) acc.
Proof.
  intros key before after d v acc Hv Ht.
  assert (Hd : py_float (py_or (dict_get d key (VInt 0)) (VInt 0))
               = inr 0%Qc).
  { unfold dict_get, py_or. rewrite Hv, Ht. exact float_of_int_zero. }
  unfold sum_of. rewrite !floats_of_app. cbn [floats_of]. rewrite Hd.
  destruct (floats_of key before) as [e | xs]; [reflexivity |].
  destruct (floats_of key after) as [e | ys]; [reflexivity |].
  now rewrite float_sum_zero.
Qed.

End CollaboratorErrors.

(** *** Requests under [/api/] *)

Section ApiRoutes.
Import Facts.

Lemma split_slash_segment (seg : string) :
  contains_slash seg = false -> split_slash seg = [seg].
Proof.
  induction seg as [| c r IH]; simpl; [reflexivity |].
  destruct (Ascii.eqb c "/"); [discriminate |]. simpl.
  intros Hr. now rewrite (IH Hr).
Qed.

Lemma split_slash_api (seg : string) :
  contains_slash seg = false ->
  split_slash ("/api/" ++ seg) = [""; "api"; seg].
Proof.
  intros Hs.
  change ("/api/" ++ seg)
    with (String "/" (String "a" (String "p" (String "i" (String "/" seg))))).
  cbn [split_slash Ascii.eqb Bool.eqb]. now rewrite (split_slash_segment _ Hs).
Qed.

(** The patterns of the routes against a path [/api/seg]. *)
Ltac api_routes Hs :=
  unfold resolve, routes, first_match, matches;
  cbn [route_path route_method route_endpoint];
  rewrite (split_slash_api _ Hs);
  change (compile_path "/") with [Lit ""; Lit ""];
  change (compile_path "/api/hello") with [Lit ""; Lit "api"; Lit "hello"];
  change (compile_path "/test") with [Lit ""; Lit "test"];
  change (compile_path "/schema") with [Lit ""; Lit "schema"];
  change (compile_path "/api/{collection}")
    with [Lit ""; Lit "api"; Param "collection"];
  change (compile_path "/api/summary") with [Lit ""; Lit "api"; Lit "summary"];
  cbn [match_segments];
  change (String.eqb "" "") with true;
  change (String.eqb "" "api") with false;
  change (String.eqb "api" "api") with true;
  change (String.eqb "test" "api") with false;
  change (String.eqb "schema" "api") with false;
  cbv iota.


Lemma resolve_post_under_api (seg : string) :
  seg <> "" -> contains_slash seg = false ->
  resolve "POST" ("/api/" ++ seg)
    = Endpoint e_create_document_endpoint [("collection", seg)].
Proof.
  intros Hne Hs. api_routes Hs.
  destruct (String.eqb "hello" seg);
    destruct seg as [| c r]; try contradiction; reflexivity.
Qed.

Context `{Library} {DB : Type} `{Persistence DB}.


(** X11.  POST [/api/name] is routed to Create with that name, whatever
    the name: [hello] and [summary] are collections to it like any other;
    the answer is what Create makes of the name and the body. *)
Theorem post_under_api_is_create :
  forall (seg : string),
    seg <> "" -> contains_slash seg = false ->
    resolve "POST" ("/api/" ++ seg)
      = Endpoint e_create_document_endpoint [("collection", seg)] /\
    forall (limit : option Z) (body : dict) (w : world DB),
      app (Request "POST" ("/api/" ++ seg) limit body) w
        = respond (create_document_endpoint seg body w).
Proof.
  intros seg Hne Hs.
  pose proof (resolve_post_under_api seg Hne Hs) as Hr.
  split; [exact Hr |]. intros limit body w.
  unfold app. cbn [method path]. rewrite Hr.
  cbn [call json_body].
  change (path_param [("collection", seg)] "collection") with seg.
  reflexivity.
Qed.

(** X12.  The route table has no route under [/api/name] for a method
    other than GET and POST: the router resolves such a request to "method
    not allowed", and to no handler. *)
Theorem other_methods_under_api_not_allowed :
  forall (m seg : string),
    seg <> "" -> contains_slash seg = false ->
    m <> "GET" -> m <> "POST" ->
    resolve m ("/api/" ++ seg) = MethodNotAllowed.
Proof.
  intros m seg Hne Hs Hg Hp. api_routes Hs.
  destruct (String.eqb_spec "GET" m) as [<- | _]; [contradiction |].
  destruct (String.eqb_spec "POST" m) as [<- | _]; [contradiction |].
  destruct (String.eqb "hello" seg), (String.eqb "summary" seg);
    destruct seg as [| c r]; try contradiction; reflexivity.
Qed.

End ApiRoutes.

(** *** What the application answers *)

Section Application.
Context `{Library} {DB : Type} `{Persistence DB}.
Import Facts.

Lemma list_documents_behaviour (collection : string) (limit : option Z)
    (w : world DB) :
  answers [404; 500]%Z (fst (list_documents collection limit w)) /\
  exists added,
    extends w (snd (list_documents collection limit w)) added /\
    length added <= 1 /\ Forall is_read added.
Proof.
  unfold list_documents.
  destruct (dict_contains COLLECTION_MODELS (lower collection)); simpl.
  - run_handler.
    destruct (db_get_documents (lower collection) None limit (store w))
      as [[e | docs] st]; simpl.
    + split; [repeat constructor |]. eexists. split; [split; reflexivity |].
      split; [simpl; lia | repeat constructor].
    + split; [exact I |]. eexists. split; [split; reflexivity |].
      split; [simpl; lia | repeat constructor].
  - split; [repeat constructor |]. exists []. split; [split; simpl |].
    + reflexivity.
    + now rewrite app_nil_r.
    + split; [simpl; lia | constructor].
Qed.

Lemma create_document_endpoint_behaviour (collection : string)
    (payload : dict) (w : world DB) :
  answers [404; 422; 500]%Z
          (fst (create_document_endpoint collection payload w)) /\
  exists added,
    extends w (snd (create_document_endpoint collection payload w)) added /\
    length added <= 1.
Proof.
  unfold create_document_endpoint.
  destruct (COLLECTION_MODELS !! lower collection) as [Model |]; simpl.
  - run_handler.
    destruct (Pydantic.model_validate Model payload) as [e | obj]; simpl.
    + split; [repeat constructor |]. exists []. split; [split; simpl |].
      * reflexivity.
      * now rewrite app_nil_r.
      * simpl; lia.
    + destruct (db_create_document (lower collection) obj (store w))
        as [[e | new_id] st]; simpl.
      * split; [repeat constructor |]. eexists. split; [split; reflexivity |].
        simpl; lia.
      * split; [exact I |]. eexists. split; [split; reflexivity |].
        simpl; lia.
  - split; [repeat constructor |]. exists []. split; [split; simpl |].
    + reflexivity.
    + now rewrite app_nil_r.
    + simpl; lia.
Qed.

Lemma get_summary_behaviour (w : world DB) :
  answers [500]%Z (fst (get_summary w)) /\
  exists added,
    extends w (snd (get_summary w)) added /\
    length added <= 5 /\ Forall is_read added.
Proof.
  unfold get_summary. run_handler.
  do 5 (match goal with
        | |- context [db_get_documents ?n (Some ∅) None ?s] =>
            destruct (db_get_documents n (Some ∅) None s) as [[? | ?] ?]
        end;
        simpl;
        [split; [repeat constructor |]; eexists;
         split; [split; [reflexivity | rewrite <- ?app_assoc; reflexivity] |];
         split; [simpl; lia | repeat constructor] |]).
  repeat match goal with
         | |- context [sum_of ?k ?l ?a] => destruct (sum_of k l a); simpl
         end;
    (split; [first [exact I | repeat constructor] |]); eexists;
    (split; [split; [reflexivity | rewrite <- ?app_assoc; reflexivity] |]);
    (split; [simpl; lia | repeat constructor]).
Qed.

Lemma answers_weaken {A : Type} (codes codes' : list Z) (r : result A) :
  (forall c, c ∈ codes -> c ∈ codes') ->
  answers codes r -> answers codes' r.
Proof. intros Hsub. destruct r as [[] |]; simpl; auto. Qed.

(** Only a POST is routed to Create. *)
Lemma create_route_needs_post (m p : string)
    (params : list (string * string)) :
  resolve m p = Endpoint e_create_document_endpoint params -> m = "POST".
Proof.
  unfold resolve.
  destruct (first_match routes m p false) as [[[e ps] |] b] eqn:Hf.
  - intros [= -> ->]. revert Hf.
    unfold routes, first_match, matches.
    cbn [route_path route_method route_endpoint].
    repeat match goal with
           | |- context [match_segments ?pat ?s] =>
               destruct (match_segments pat s) eqn:?
           end;
      repeat match goal with
             | |- context [String.eqb ?a ?b] => destruct (String.eqb_spec a b)
             end;
      intros [= <-]; try discriminate; subst; congruence.
  - destruct b; [discriminate |]. destruct (_ && _); discriminate.
Qed.

(** X13.  Whatever the collaborator does, a handler returns or raises an
    [HTTPException]; no other exception leaves a handler.  List raises
    only 404 and 500, Create only 404, 422 and 500, Summary only 500, and
    the other handlers never raise. *)
Theorem handlers_raise_only_http_errors :
  forall (e : endpoint) (params : list (string * string)) (req : request)
         (w : world DB),
    answers (match e with
             | e_list_documents => [404; 500]
             | e_create_document_endpoint => [404; 422; 500]
             | e_get_summary => [500]
             | _ => []
             end)%Z
            (fst (call e params req w)).
Proof.
  intros e params req w. destruct e; cbn [call]; try exact I.
  - destruct (test_database_returns w) as [r ->]. exact I.
  - apply list_documents_behaviour.
  - apply create_document_endpoint_behaviour.
  - apply get_summary_behaviour.
Qed.

(** X14.  A request never touches the environment and adds at most one
    call to the log of the collaborator; a request whose method is not POST
    adds only reads, so it never inserts. *)
Theorem app_effects :
  forall (req : request) (w : world DB),
  exists added : list db_call,
    extends w (snd (app req w)) added /\
    length added <= 1 /\
    (method req <> "POST" -> Forall is_read added).
Proof.
  intros req w. unfold app.
  destruct (resolve (method req) (path req)) as [e params | | url |] eqn:Hr;
    simpl;
    try (exists []; split; [split; [reflexivity | now rewrite app_nil_r] |];
         split; [simpl; lia | constructor]).
  assert (Hcall : exists added,
             extends w (snd (call e params req w)) added /\
             length added <= 1 /\
             (method req <> "POST" -> Forall is_read added)).
  { destruct e; simpl;
      try (exists []; split; [split; [reflexivity | now rewrite app_nil_r] |];
           split; [simpl; lia | constructor]).
    - destruct (test_database_returns w) as [r ->].
      exists []. split; [split; [reflexivity | now rewrite app_nil_r] |].
      split; [simpl; lia | constructor].
    - destruct (list_documents_behaviour
                  (path_param params "collection")
                  (Some match query_limit req with
                        | Some n => n
                        | None => 50%Z
                        end) w) as (_ & added & Hext & Hlen & Hread).
      exists added. auto.
    - destruct (create_document_endpoint_behaviour
                  (path_param params "collection") (json_body req) w)
        as (_ & added & Hext & Hlen).
      exists added. split; [exact Hext |]. split; [exact Hlen |].
      intros Hm. now apply create_route_needs_post in Hr.
    - now apply get_summary_unreachable in Hr. }
  destruct Hcall as (added & Hext & Hlen & Hread). exists added.
  destruct (call e params req w) as [[[] | b] w']; simpl in *; auto.
Qed.

End Application.

(** *** What Create accepts and what it stores *)

Section Acceptance.
Context `{Library} {DB : Type} `{Persistence DB}.
Import Facts Pydantic.

(** An error of one field refuses the whole payload. *)
Lemma create_refuses (collection : string) (Model : BaseModel)
    (payload : dict) (f : FieldInfo) (es : list line_error) (e : line_error)
    (w : world DB) :
  COLLECTION_MODELS !! lower collection = Some Model ->
  f ∈ model_fields Model ->
  validate_entry payload f = inl es ->
  e ∈ es ->
  exists errors,
    create_document_endpoint collection payload w
      = (inl (HTTPException 422
                ("Validation error: "
                 ++ validation_error_str (model_name Model) errors)), w) /\
    e ∈ errors.
Proof.
  intros Hm Hf Hes He.
  pose proof (validate_fields_errors payload _ f es e Hf Hes He) as Hin.
  rewrite (create_document_endpoint_resolved _ _ _ _ Hm).
  unfold model_validate.
  destruct (validate_fields payload (model_fields Model))
    as [[| e' errs] vals]; simpl in Hin.
  - now apply not_elem_of_nil in Hin.
  - exists (e' :: errs). split; [reflexivity | exact Hin].
Qed.

(** X15.  A payload that leaves out a field declared without default is
    refused with 422, the error naming the field as missing, and nothing
    is inserted. *)
Theorem create_requires_declared_fields :
  forall (collection : string) (Model : BaseModel) (payload : dict)
         (f : FieldInfo) (w : world DB),
    COLLECTION_MODELS !! lower collection = Some Model ->
    f ∈ model_fields Model ->
    field_default f = None ->
    payload !! field_name f = None ->
    exists errors,
      create_document_endpoint collection payload w
        = (inl (HTTPException 422
                  ("Validation error: "
                   ++ validation_error_str (model_name Model) errors)), w) /\
      LineError [LField (field_name f)] missing ∈ errors.
Proof.
  intros collection Model payload f w Hm Hf Hd Hp.
  eapply create_refuses; [exact Hm | exact Hf | | apply list_elem_of_singleton;
                                                  reflexivity].
  unfold validate_entry. now rewrite Hp, Hd.
Qed.

(** X16.  A text field given anything but text is refused with 422 (a
    number is not turned into text); only an optional field may be given
    [None]. *)
Theorem create_rejects_non_text :
  forall (collection : string) (Model : BaseModel) (payload : dict)
         (f : FieldInfo) (v : value) (w : world DB),
    COLLECTION_MODELS !! lower collection = Some Model ->
    f ∈ model_fields Model ->
    field_annotation f = Tstr ->
    payload !! field_name f = Some v ->
    (forall s, v <> VStr s) ->
    (field_optional f = true -> v <> VNone) ->
    exists errors,
      create_document_endpoint collection payload w
        = (inl (HTTPException 422
                  ("Validation error: "
                   ++ validation_error_str (model_name Model) errors)), w) /\
      LineError [LField (field_name f)] string_type ∈ errors.
Proof.
  intros collection Model payload f v w Hm Hf Ht Hp Hns Hopt.
  eapply create_refuses; [exact Hm | exact Hf | | apply list_elem_of_singleton;
                                                  reflexivity].
  unfold validate_entry, validate_field. rewrite Hp, Ht.
  destruct (field_optional f); destruct v; try reflexivity;
    first [now destruct (Hopt eq_refl) | now destruct (Hns s)].
Qed.

Lemma check_bounds_none (f : FieldInfo) (q : Qc) :
  check_bounds f q = None -> ~ Spec.violates f q.
Proof.
  unfold check_bounds, Spec.violates. intros Hcb Hv.
  destruct (field_le f) as [b |] eqn:Hle.
  - destruct (Qc_ltb b q) eqn:Hb; [discriminate |].
    destruct Hv as [(a & Ha & Hlt) | (b' & Hb' & Hlt)].
    + rewrite Ha in Hcb. apply Qc_ltb_lt in Hlt. rewrite Hlt in Hcb.
      discriminate.
    + injection Hb' as <-. apply Qc_ltb_lt in Hlt. congruence.
  - destruct Hv as [(a & Ha & Hlt) | (b' & Hb' & Hlt)]; [| discriminate].
    rewrite Ha in Hcb. apply Qc_ltb_lt in Hlt. rewrite Hlt in Hcb.
    discriminate.
Qed.

Lemma validate_items_none (name : string) (l : list value) :
  forall i, validate_items name i l = [] ->
            Forall (fun x => exists s, x = VStr s) l.
Proof.
  induction l as [| x r IH]; intros i; simpl; [constructor |].
  destruct x; try discriminate.
  intros Hr. constructor; [eauto | now apply (IH (S i))].
Qed.

(** What validation lets through for a field is of the declared type. *)
Lemma validate_field_well_typed (f : FieldInfo) (given v : value) :
  validate_field f given = inr v -> well_typed f v.
Proof.
  unfold validate_field, well_typed.
  assert (Hmain :
    match field_annotation f with
    | Tstr => match given with
              | VStr s => inr (VStr s)
              | _ => inl [LineError [LField (field_name f)] string_type]
              end
    | Tfloat =>
        match coerce_float given with
        | inl t => inl [LineError [LField (field_name f)] t]
        | inr q =>
            match check_bounds f q with
            | Some t => inl [LineError [LField (field_name f)] t]
            | None => inr (VFloat q)
            end
        end
    | Tdate =>
        match pydantic_date given with
        | Some d => inr d
        | None => inl [LineError [LField (field_name f)] date_type]
        end
    | Tlist_str =>
        match given with
        | VList l =>
            match validate_items (field_name f) 0 l with
            | [] => inr (VList l)
            | errs => inl errs
            end
        | _ => inl [LineError [LField (field_name f)] list_type]
        end
    end = inr v ->
    match field_annotation f with
    | Tstr => exists s, v = VStr s
    | Tfloat => exists q, v = VFloat q /\ ~ Spec.violates f q
    | Tdate => exists given, pydantic_date given = Some v
    | Tlist_str =>
        exists l, v = VList l /\ Forall (fun x => exists s, x = VStr s) l
    end).
  { destruct (field_annotation f).
    - destruct given; try discriminate. intros [= <-]. eauto.
    - destruct (coerce_float given) as [t | q]; [discriminate |].
      destruct (check_bounds f q) eqn:Hcb; [discriminate |].
      intros [= <-]. exists q. split; [reflexivity |].
      now apply check_bounds_none.
    - destruct (pydantic_date given) as [d |] eqn:Hd; [| discriminate].
      intros [= <-]. eauto.
    - destruct given; try discriminate.
      destruct (validate_items (field_name f) 0 l) eqn:Hi; [| discriminate].
      intros [= <-]. exists l. split; [reflexivity |].
      now apply validate_items_none in Hi. }
  destruct (field_optional f) eqn:Hopt.
  - destruct given; try (intros Hv; right; exact (Hmain Hv)).
    intros [= <-]. now left.
  - intros Hv. right. exact (Hmain Hv).
Qed.

(** An accepted payload gives one entry per declared field, the outcome of
    that field. *)
Lemma validate_fields_entries (payload : dict) (fields : list FieldInfo)
    (vals : model_instance) :
  validate_fields payload fields = ([], vals) ->
  Forall2 (fun f kv => fst kv = field_name f /\
                       validate_entry payload f = inr (snd kv))
          fields vals.
Proof.
  revert vals. induction fields as [| f fs IH]; intros vals; simpl.
  - intros [= <-]. constructor.
  - destruct (validate_fields payload fs) as [errs vals'].
    destruct (validate_entry payload f) as [es | v] eqn:He.
    + intros [= Happ <-]. apply app_eq_nil in Happ as [-> _].
      now apply validate_entry_errors_nonempty in He.
    + intros [= -> <-].
      constructor; [split; [reflexivity | exact He] | now apply IH].
Qed.

(** In the eight models a default is [None], on an optional field. *)
Lemma registered_defaults (name : string) (Model : BaseModel)
    (f : FieldInfo) (d : value) :
  COLLECTION_MODELS !! name = Some Model ->
  f ∈ model_fields Model ->
  field_default f = Some d ->
  field_optional f = true /\ d = VNone.
Proof.
  intros Hm Hf Hd. each_model Hm;
    repeat (apply elem_of_cons in Hf as [-> | Hf];
            [first [discriminate Hd
                   | injection Hd as <-; split; reflexivity] |]);
    now apply not_elem_of_nil in Hf.
Qed.

Lemma validate_entry_well_typed (name : string) (Model : BaseModel)
    (payload : dict) (f : FieldInfo) (v : value) :
  COLLECTION_MODELS !! name = Some Model ->
  f ∈ model_fields Model ->
  validate_entry payload f = inr v ->
  well_typed f v.
Proof.
  intros Hm Hf. unfold validate_entry.
  destruct (payload !! field_name f) as [given |].
  - apply validate_field_well_typed.
  - destruct (field_default f) as [d |] eqn:Hd; [| discriminate].
    intros [= <-]. left. exact (registered_defaults _ _ _ _ Hm Hf Hd).
Qed.

Lemma Forall2_impl_elem {A B : Type} (P Q : A -> B -> Prop)
    (l : list A) (k : list B) :
  Forall2 P l k ->
  (forall x y, x ∈ l -> P x y -> Q x y) ->
  Forall2 Q l k.
Proof.
  induction 1 as [| x y l k Hxy Hlk IH]; intros Himp; constructor.
  - apply Himp; [left | exact Hxy].
  - apply IH. intros x' y' Hx'. apply Himp. now right.
Qed.

(** X17.  Whatever Create hands to the collaborator is a record of the
    model: one entry per declared field, in order, each [None] (optional
    fields only), text, a float inside the declared range, a validated
    date, or a list of text, as the field declares.  So a required text or
    number is never [None], a number given as an integer is stored as a
    float, and no stored number breaks its range. *)
Theorem created_records_are_well_typed :
  forall (collection : string) (Model : BaseModel) (payload : dict)
         (w : world DB) (name : string) (data : model_instance),
    COLLECTION_MODELS !! lower collection = Some Model ->
    CreateDocument name data
      ∈ calls (snd (create_document_endpoint collection payload w)) ->
    CreateDocument name data ∈ calls w \/
    (name = lower collection /\
     Forall2 (fun f kv => fst kv = field_name f /\ well_typed f (snd kv))
             (model_fields Model) data).
Proof.
  intros collection Model payload w name data Hm.
  rewrite (create_document_endpoint_resolved _ _ _ _ Hm).
  destruct (model_validate Model payload) as [e | obj] eqn:Hv; simpl;
    [now left |].
  destruct (db_create_document (lower collection) obj (store w)) as [r st].
  simpl. rewrite elem_of_app, list_elem_of_singleton.
  intros [Hold | [= -> ->]]; [now left | right].
  split; [reflexivity |].
  unfold model_validate in Hv.
  destruct (validate_fields payload (model_fields Model))
    as [[| e errs] vals] eqn:Hvf; [| discriminate].
  injection Hv as <-. apply validate_fields_entries in Hvf.
  eapply Forall2_impl_elem; [exact Hvf |].
  intros f kv Hf [Hk He]. split; [exact Hk |].
  exact (validate_entry_well_typed _ _ _ _ _ Hm Hf He).
Qed.

End Acceptance.

(** *** Ranges are inclusive, omitted fields are [None] *)

Section Ranges.
Context `{Library} {DB : Type} `{Persistence DB}.
Import Facts Pydantic.

Lemma check_bounds_in_range (f : FieldInfo) (q : Qc) :
  ~ Spec.violates f q -> check_bounds f q = None.
Proof.
  unfold Spec.violates, check_bounds. intros Hnv.
  destruct (field_le f) as [b |].
  - destruct (Qc_ltb b q) eqn:Hb.
    + exfalso. apply Hnv. right. exists b. split; [reflexivity |].
      now apply Qc_ltb_lt.
    + destruct (field_ge f) as [a |]; [| reflexivity].
      destruct (Qc_ltb q a) eqn:Ha; [| reflexivity].
      exfalso. apply Hnv. left. exists a. split; [reflexivity |].
      now apply Qc_ltb_lt.
  - destruct (field_ge f) as [a |]; [| reflexivity].
    destruct (Qc_ltb q a) eqn:Ha; [| reflexivity].
    exfalso. apply Hnv. left. exists a. split; [reflexivity |].
    now apply Qc_ltb_lt.
Qed.

(** A number inside the range of a float field is taken, as a float. *)
Lemma validate_field_in_range (f : FieldInfo) (v : value) (q : Qc) :
  field_annotation f = Tfloat ->
  coerce_float v = inr q ->
  ~ Spec.violates f q ->
  validate_field f v = inr (VFloat q).
Proof.
  intros Ht Hq Hnv. unfold validate_field.
  rewrite Ht, Hq, (check_bounds_in_range _ _ Hnv).
  destruct (field_optional f); [destruct v |]; try reflexivity.
  discriminate.
Qed.

(** X18.  The range of [allocation_percent] is inclusive: a beneficiary
    with a name and a percentage [q] between 0 and 100, both ends
    included, is accepted and handed over with the percentage as a float
    and the fields left out as [None]; below 0 or above 100 it is refused
    with 422 and nothing is handed over. *)
Theorem beneficiary_percent_range_is_inclusive :
  forall (full_name : string) (v : value) (q : Qc) (w : world DB),
    coerce_float v = inr q ->
    let payload : dict :=
      <["full_name" := VStr full_name]> {[ "allocation_percent" := v ]} in
    let record : model_instance :=
      [ ("full_name", VStr full_name); ("email", VNone); ("phone", VNone);
        ("relation", VNone); ("allocation_percent", VFloat q);
        ("notes", VNone) ] in
    ((0 <= q)%Qc /\ (q <= Qc_of_Z 100)%Qc ->
       Pydantic.model_validate Schemas.Beneficiary payload = inr record /\
       calls (snd (create_document_endpoint "beneficiary" payload w))
         = (calls w ++ [CreateDocument "beneficiary" record])%list) /\
    ((q < 0)%Qc \/ (Qc_of_Z 100 < q)%Qc ->
       exists detail,
         create_document_endpoint "beneficiary" payload w
           = (inl (HTTPException 422 detail), w)).
Proof.
  intros full_name v q w Hq payload record.
  set (f := Schemas.optional "allocation_percent" Tfloat (Some 0%Qc)
                             (Some (Qc_of_Z 100))).
  assert (Hm : COLLECTION_MODELS !! lower "beneficiary"
               = Some Schemas.Beneficiary) by reflexivity.
  assert (Hv : payload !! "allocation_percent" = Some v) by reflexivity.
  split.
  - intros [Hlow Hhigh].
    assert (Hnv : ~ Spec.violates f q).
    { intros [(a & [= <-] & Hlt) | (b & [= <-] & Hlt)].
      - now apply Qclt_not_le in Hlt.
      - now apply Qclt_not_le in Hlt. }
    assert (Hvalid : Pydantic.model_validate Schemas.Beneficiary payload
                     = inr record).
    { assert (Epct : validate_entry payload f = inr (VFloat q)).
      { unfold validate_entry. change (field_name f) with "allocation_percent".
        rewrite Hv. now apply validate_field_in_range. }
      unfold model_validate, Schemas.Beneficiary.
      cbn [model_fields validate_fields]. fold f. rewrite Epct.
      reflexivity. }
    split; [exact Hvalid |].
    rewrite (create_document_endpoint_resolved _ _ _ _ Hm), Hvalid.
    destruct (db_create_document (lower "beneficiary") record (store w))
      as [r st]. reflexivity.
  - intros Hout.
    assert (Hviol : Spec.violates f q).
    { destruct Hout as [Hlt | Hlt]; [left | right]; eexists;
        (split; [reflexivity | exact Hlt]). }
    assert (Hf : f ∈ model_fields Schemas.Beneficiary)
      by (unfold f; simpl; repeat constructor).
    destruct (validate_entry_out_of_range payload f v q eq_refl Hv Hq Hviol)
      as (e & He & _).
    destruct (create_refuses "beneficiary" Schemas.Beneficiary payload f [e] e
                w Hm Hf He) as (errors & Hc & _).
    + apply list_elem_of_singleton. reflexivity.
    + eexists. exact Hc.
Qed.

End Ranges.

Section Omitted.
Context `{Library} {DB : Type} `{Persistence DB}.
Import Facts Pydantic.

(** X19.  A declared field that an accepted payload leaves out is an
    optional one, and the record handed to the collaborator holds [None]
    for it. *)
Theorem omitted_fields_are_stored_as_none :
  forall (collection : string) (Model : BaseModel) (payload : dict)
         (w : world DB) (name : string) (data : model_instance)
         (f : FieldInfo),
    COLLECTION_MODELS !! lower collection = Some Model ->
    calls (snd (create_document_endpoint collection payload w))
      = (calls w ++ [CreateDocument name data])%list ->
    f ∈ model_fields Model ->
    payload !! field_name f = None ->
    field_optional f = true /\ (field_name f, VNone) ∈ data.
Proof.
  intros collection Model payload w name data f Hm Hcalls Hf Hp.
  rewrite (create_document_endpoint_resolved _ _ _ _ Hm) in Hcalls.
  destruct (model_validate Model payload) as [e | obj] eqn:Hv; simpl in Hcalls.
  { apply (f_equal length) in Hcalls. rewrite length_app in Hcalls.
    simpl in Hcalls. lia. }
  destruct (db_create_document (lower collection) obj (store w)) as [r st].
  simpl in Hcalls. apply app_inv_head in Hcalls. injection Hcalls as <- <-.
  unfold model_validate in Hv.
  destruct (validate_fields payload (model_fields Model))
    as [[| e errs] vals] eqn:Hvf; [| discriminate].
  injection Hv as <-. apply validate_fields_entries in Hvf.
  apply list_elem_of_lookup in Hf as [i Hi].
  destruct (Forall2_lookup_l _ _ _ _ _ Hvf Hi) as ([k v] & Hkv & Hk & He).
  simpl in Hk, He. subst k.
  unfold validate_entry in He. rewrite Hp in He.
  destruct (field_default f) as [d |] eqn:Hd; [| discriminate].
  injection He as <-.
  destruct (registered_defaults _ _ f d Hm) as [Hopt ->];
    [apply list_elem_of_lookup; eauto | exact Hd |].
  split; [exact Hopt |]. apply list_elem_of_lookup. eauto.
Qed.

End Omitted.

(* ===================================================================== *)
(** ** The further properties at concrete inputs *)
(* ===================================================================== *)

Section FurtherInstances.
Import Facts.

Lemma collection_key_is_lowered_class_name_witness :
  COLLECTION_MODELS !! "compliancedocument" = Some Schemas.ComplianceDocument /\
  lower (model_name Schemas.ComplianceDocument) = "compliancedocument".
Proof.
  split; [reflexivity |].
  exact (collection_key_is_lowered_class_name "compliancedocument"
           Schemas.ComplianceDocument eq_refl).
Defined.


Lemma post_under_api_is_create_witness :
  "hello" <> "" /\ contains_slash "hello" = false /\
  resolve "POST" ("/api/" ++ "hello")
    = Endpoint e_create_document_endpoint [("collection", "hello")].
Proof.
  assert (H1 : "hello" <> "") by discriminate.
  split; [exact H1 |]. split; [reflexivity |].
  exact (proj1 (post_under_api_is_create (H := Example.library)
                  (H0 := Example.persistence) "hello" H1 eq_refl)).
Defined.

Lemma other_methods_under_api_not_allowed_witness :
  "trust" <> "" /\ contains_slash "trust" = false /\
  "DELETE" <> "GET" /\ "DELETE" <> "POST" /\
  resolve "DELETE" ("/api/" ++ "trust") = MethodNotAllowed.
Proof.
  assert (H1 : "trust" <> "") by discriminate.
  assert (H2 : "DELETE" <> "GET") by discriminate.
  assert (H3 : "DELETE" <> "POST") by discriminate.
  split; [exact H1 |]. split; [reflexivity |].
  split; [exact H2 |]. split; [exact H3 |].
  exact (other_methods_under_api_not_allowed "DELETE" "trust" H1 eq_refl H2 H3).
Defined.

Lemma falsy_amount_is_neutral_witness :
  ({[ "amount" := VStr "" ]} : dict) !! "amount" = Some (VStr "") /\
  truthy (VStr "") = false /\
  sum_of (H := Example.library) "amount"
         ([ {[ "amount" := VInt 5 ]} ] ++ {[ "amount" := VStr "" ]} :: []) 0%Qc
    = sum_of (H := Example.library) "amount"
             ([ {[ "amount" := VInt 5 ]} ] ++ []) 0%Qc.
Proof.
  split; [reflexivity |]. split; [reflexivity |].
  exact (falsy_amount_is_neutral (H := Example.library) "amount"
           [ {[ "amount" := VInt 5 ]} ] [] {[ "amount" := VStr "" ]}
           (VStr "") 0%Qc eq_refl eq_refl).
Defined.

End FurtherInstances.

Section UnavailableInstances.
#[local] Existing Instance Example.library.
#[local] Existing Instance Example.unavailable.
Import Facts.

Lemma list_passes_collaborator_error_witness :
  lower "Trust" ∈ Spec.recognized /\
  db_get_documents (lower "Trust") None (Some 50%Z) (store Example.nowhere)
    = (inl (Exception "Database not available"), tt) /\
  list_documents "Trust" (Some 50%Z) Example.nowhere
    = (inl (HTTPException 500 "Database not available"),
       {| store := tt; environ := ∅;
          calls := [GetDocuments "trust" None (Some 50%Z)] |}).
Proof.
  assert (Hrec : lower "Trust" ∈ Spec.recognized) by repeat constructor.
  split; [exact Hrec |]. split; [reflexivity |].
  exact (list_passes_collaborator_error "Trust" (Some 50%Z) Example.nowhere
           (Exception "Database not available") tt Hrec eq_refl).
Defined.

Lemma summary_stops_at_first_failure_witness :
  fetch_each summary_collections (store Example.nowhere)
    = (inl (Exception "Database not available"), tt, 1) /\
  get_summary Example.nowhere
    = (inl (HTTPException 500 "Database not available"),
       {| store := tt; environ := ∅;
          calls := [GetDocuments "trust" (Some ∅) None] |}).
Proof.
  split; [reflexivity |].
  exact (proj1 (summary_stops_at_first_failure Example.nowhere
                  (Exception "Database not available") tt 1 eq_refl)).
Defined.

End UnavailableInstances.

Section RefusingInstances.
#[local] Existing Instance Example.library.
#[local] Existing Instance Example.refusing.
Import Facts.

Lemma test_error_text_is_bounded_witness :
  exists label shown rest : string,
    "⚠️  Connected but Error: connection refused" = label ++ shown /\
    (label = "❌ Error: " \/ label = "⚠️  Connected but Error: ") /\
    "connection refused" = shown ++ rest /\
    char_count shown <= 50 /\
    (char_count "connection refused" <= 50 -> shown = "connection refused").
Proof.
  refine (test_error_text_is_bounded Example.nowhere
            {| backend := "✅ Running";
               database := "⚠️  Connected but Error: connection refused";
               database_url := Some "❌ Not Set";
               database_name := Some "❌ Not Set";
               connection_status := "Connected";
               collections := [] |}
            eq_refl (Exception "connection refused") _).
  right. eexists. split; reflexivity.
Defined.

End RefusingInstances.

Section StoreInstances.
#[local] Existing Instance Example.library.
#[local] Existing Instance Example.persistence.
Import Facts.

Lemma summary_fails_on_unconvertible_amount_witness :
  ({[ "amount" := VList [VInt 1] ]} : dict) ∈ Example.odd_donations /\
  truthy (VList [VInt 1]) = true /\
  exists detail : string,
    fst (get_summary Example.odd_ledger) = inl (HTTPException 500 detail).
Proof.
  assert (Hd : ({[ "amount" := VList [VInt 1] ]} : dict)
               ∈ Example.odd_donations) by repeat constructor.
  split; [exact Hd |]. split; [reflexivity |].
  assert (H1 : db_get_documents "trust" (Some ∅) None
                 (store Example.odd_ledger)
               = (inr [], store Example.odd_ledger)) by reflexivity.
  assert (H5 : db_get_documents "donation" (Some ∅) None
                 (store Example.odd_ledger)
               = (inr Example.odd_donations, store Example.odd_ledger))
    by reflexivity.
  exact (summary_fails_on_unconvertible_amount Example.odd_ledger
           [] [] [] [] Example.odd_donations
           (store Example.odd_ledger) (store Example.odd_ledger)
           (store Example.odd_ledger) (store Example.odd_ledger)
           (store Example.odd_ledger)
           "amount" {[ "amount" := VList [VInt 1] ]} (VList [VInt 1])
           (TypeError
              "float() argument must be a string or a real number, not 'list'")
           H1 H1 H1 H1 H5 (or_introl (conj eq_refl Hd))
           eq_refl eq_refl eq_refl).
Defined.

Lemma create_requires_declared_fields_witness :
  COLLECTION_MODELS !! lower "Trustee" = Some Schemas.Trustee /\
  ({[ "full_name" := VStr "Ann" ]} : dict) !! "role" = None /\
  exists errors,
    create_document_endpoint "Trustee" {[ "full_name" := VStr "Ann" ]}
                             Example.empty_world
      = (inl (HTTPException 422
                ("Validation error: "
                 ++ validation_error_str "Trustee" errors)),
         Example.empty_world) /\
    LineError [LField "role"] missing ∈ errors.
Proof.
  split; [reflexivity |]. split; [reflexivity |].
  apply (create_requires_declared_fields "Trustee" Schemas.Trustee
           {[ "full_name" := VStr "Ann" ]}
           (Schemas.required "role" Tstr None None) Example.empty_world).
  - reflexivity.
  - repeat constructor.
  - reflexivity.
  - reflexivity.
Defined.

Lemma create_rejects_non_text_witness :
  COLLECTION_MODELS !! lower "trust" = Some Schemas.Trust /\
  ({[ "name" := VInt 5 ]} : dict) !! "name" = Some (VInt 5) /\
  exists errors,
    create_document_endpoint "trust" {[ "name" := VInt 5 ]}
                             Example.empty_world
      = (inl (HTTPException 422
                ("Validation error: "
                 ++ validation_error_str "Trust" errors)),
         Example.empty_world) /\
    LineError [LField "name"] string_type ∈ errors.
Proof.
  split; [reflexivity |]. split; [reflexivity |].
  apply (create_rejects_non_text "trust" Schemas.Trust {[ "name" := VInt 5 ]}
           (Schemas.required "name" Tstr None None) (VInt 5)
           Example.empty_world).
  - reflexivity.
  - repeat constructor.
  - reflexivity.
  - reflexivity.
  - discriminate.
  - discriminate.
Defined.

Lemma created_records_are_well_typed_witness :
  COLLECTION_MODELS !! lower "Trust" = Some Schemas.Trust /\
  CreateDocument "trust" Example.smith_trust_instance
    ∈ calls (snd (create_document_endpoint "Trust" Example.smith_trust
                    Example.empty_world)) /\
  (CreateDocument "trust" Example.smith_trust_instance
     ∈ calls Example.empty_world \/
   ("trust" = lower "Trust" /\
    Forall2 (fun f kv => fst kv = field_name f /\ well_typed f (snd kv))
            (model_fields Schemas.Trust) Example.smith_trust_instance)).
Proof.
  assert (Hin : CreateDocument "trust" Example.smith_trust_instance
                ∈ calls (snd (create_document_endpoint "Trust"
                                Example.smith_trust Example.empty_world)))
    by (apply list_elem_of_singleton; reflexivity).
  split; [reflexivity |]. split; [exact Hin |].
  exact (created_records_are_well_typed "Trust" Schemas.Trust
           Example.smith_trust Example.empty_world "trust"
           Example.smith_trust_instance eq_refl Hin).
Defined.

Lemma beneficiary_percent_range_is_inclusive_witness :
  Pydantic.coerce_float (VInt 100) = inr (Qc_of_Z 100) /\
  Pydantic.model_validate Schemas.Beneficiary
    (<["full_name" := VStr "Jane"]> {[ "allocation_percent" := VInt 100 ]})
    = inr [ ("full_name", VStr "Jane"); ("email", VNone); ("phone", VNone);
            ("relation", VNone);
            ("allocation_percent", VFloat (Qc_of_Z 100)); ("notes", VNone) ].
Proof.
  split; [reflexivity |].
  apply (proj1 (beneficiary_percent_range_is_inclusive "Jane" (VInt 100)
                  (Qc_of_Z 100) Example.empty_world eq_refl)).
  split.
  - now apply (proj1 (Z2Qc_inj_le 0 100)).
  - apply Qcle_refl.
Defined.

Lemma omitted_fields_are_stored_as_none_witness :
  COLLECTION_MODELS !! lower "Trust" = Some Schemas.Trust /\
  Example.smith_trust !! "purpose" = None /\
  ("purpose", VNone) ∈ Example.smith_trust_instance.
Proof.
  split; [reflexivity |]. split; [reflexivity |].
  apply (omitted_fields_are_stored_as_none "Trust" Schemas.Trust
           Example.smith_trust Example.empty_world "trust"
           Example.smith_trust_instance
           (Schemas.optional "purpose" Tstr None None)).
  - reflexivity.
  - reflexivity.
  - repeat constructor.
  - reflexivity.
Defined.

End StoreInstances.
